(** * Slashy keyboard-shortcut test suite: the result recorder and its reports

    A shallow embedding of the two recorder classes of the repository,
    [slashy_test.SlashyShortcutTester] and
    [slashy_shortcut_tests.SlashyShortcutTester], and the proofs of the
    properties their specification states about them.

    Layout:
    - Python runtime notions the classes rely on: exceptions, a state and
      exception monad, binary64 floats, [str] helpers, [datetime];
    - [Module slashy_test]: the recorder of slashy_test.py;
    - [Module slashy_shortcut_tests]: the recorder of slashy_shortcut_tests.py;
    - lemmas and theorems. *)

From Stdlib Require Import ZArith String Ascii List Bool Lia SpecFloat DecimalString.
From stdpp Require Import gmap strings list.

Local Open Scope Z_scope.

(** ** Exceptions and the method monad *)

(** The exceptions the recorder can raise: two from its arithmetic, and
    the one [open] raises when the report file cannot be opened. *)
Inductive exn : Type :=
  | ZeroDivisionError
  | OverflowError
  | OSError.

Inductive result (A : Type) : Type :=
  | Ok (a : A)
  | Raise (e : exn).
Arguments Ok {A} a.
Arguments Raise {A} e.

(** A method body is a state transformer that returns a value or raises;
    the state reached before a raise is kept, as in Python. *)
Definition M (S A : Type) : Type := S -> result A * S.

#[global] Instance M_ret {S : Type} : MRet (M S) :=
  fun A a s => (Ok a, s).

#[global] Instance M_bind {S : Type} : MBind (M S) :=
  fun A B f m s =>
    match m s with
    | (Ok a, s') => f a s'
    | (Raise e, s') => (Raise e, s')
    end.

Definition gets {S A : Type} (f : S -> A) : M S A :=
  fun s => (Ok (f s), s).

Definition modify {S : Type} (f : S -> S) : M S unit :=
  fun s => (Ok tt, f s).

Definition lift_result {S A : Type} (r : result A) : M S A :=
  fun s => (r, s).

(** [for x in xs: body(x)] *)
Fixpoint for_each {S A : Type} (xs : list A) (body : A -> M S unit) : M S unit :=
  match xs with
  | [] => mret tt
  | x :: rest => body x;; for_each rest body
  end.

(** Heap addresses of mutable Python objects. *)
Abbreviation loc := positive.

(** ** Python [float]: IEEE 754 binary64 *)

Module pyfloat.

Definition prec : Z := 53.
Definition emax : Z := 1024.

Abbreviation float := spec_float.

(** [float(z)] for an [int] operand of a mixed operation, rounded to
    nearest even. *)
Definition of_int (z : Z) : float := binary_normalize prec emax z 0 false.

Definition mul (x y : float) : float := SFmul prec emax x y.

(** [x >= y] and [x < y]; both are [False] when an operand is a NaN. *)
Definition ge (x y : float) : bool := SFleb y x.
Definition lt (x y : float) : bool := SFltb x y.

(** An [int] as the exact operand [z * 2^0] of a correctly rounded
    division. *)
Definition int_operand (z : Z) : float :=
  match z with
  | Z0 => S754_zero false
  | Zpos p => S754_finite false p 0
  | Zneg p => S754_finite true p 0
  end.

(** [a / b] on two [int]s: the exact quotient rounded once to nearest
    even; [ZeroDivisionError] for [b == 0], [OverflowError] when the
    quotient is too large for a float. *)
Definition int_true_div (a b : Z) : result float :=
  if b =? 0 then Raise ZeroDivisionError
  else
    match SFdiv prec emax (int_operand a) (int_operand b) with
    | S754_infinity _ => Raise OverflowError
    | q => Ok q
    end.

(** [m * 2^e * scale] rounded to the nearest integer, ties to even. *)
Definition round_half_even_scaled (m : positive) (e : Z) (scale : Z) : Z :=
  match e with
  | Zneg p =>
      let num := Zpos m * scale in
      let den := 2 ^ Zpos p in
      let q := num / den in
      let r := num mod den in
      match 2 * r ?= den with
      | Lt => q
      | Eq => if Z.even q then q else q + 1
      | Gt => q + 1
      end
  | _ => Zpos m * 2 ^ e * scale
  end.

(** [round(x, ndigits)] for [ndigits >= 0]: the decimal expansion of [x]
    correctly rounded to [ndigits] places, converted back to the nearest
    float. *)
Definition round (x : float) (ndigits : nat) : result float :=
  match x with
  | S754_finite s m e =>
      if (323 <? Z.of_nat ndigits) then Ok x
      else
        let scale := 10 ^ Z.of_nat ndigits in
        match round_half_even_scaled m e scale with
        | Zpos n =>
            match SFdiv prec emax (S754_finite s n 0) (int_operand scale) with
            | S754_infinity _ => Raise OverflowError
            | r => Ok r
            end
        | _ => Ok (S754_zero s)
        end
  | _ => Ok x
  end.

(** A float that is a zero, or a finite number with a mantissa of at most
    53 bits and an exponent of at most [E]: neither a NaN nor an infinity. *)
Definition finite_upto (E : Z) (x : float) : Prop :=
  match x with
  | S754_zero _ => True
  | S754_finite _ m e => Zpos (digits2_pos m) <= 53 /\ e <= E
  | _ => False
  end.

End pyfloat.

(** ** Python [str] helpers *)

Module pystr.

(** [str(z)] for an [int] of at most [int_max_str_digits] digits; CPython
    refuses to convert a longer one. *)
Definition of_int (z : Z) : string := NilZero.string_of_int (Z.to_int z).



Fixpoint repeat (s : string) (n : nat) : string :=
  match n with
  | O => EmptyString
  | S n' => s +:+ repeat s n'
  end.

(** [len(s)]: strings are held as UTF-8 bytes, Python counts code points,
    that is the bytes that are not continuation bytes. *)
Definition is_continuation (a : ascii) : bool :=
  let n := N_of_ascii a in (128 <=? n)%N && (n <? 192)%N.

Fixpoint len (s : string) : nat :=
  match s with
  | EmptyString => O
  | String a s' => ((if is_continuation a then 0 else 1) + len s')%nat
  end.

(** Whether the bytes are the UTF-8 encoding of a text. [print] encodes
    what it writes; a [str] that holds a lone surrogate has no encoding and
    [print] raises [UnicodeEncodeError] for it. The clauses are those of
    the Unicode standard's table of well-formed byte sequences. *)
Definition is_tail (a : ascii) : bool := is_continuation a.

Definition in_range (lo hi : N) (a : ascii) : bool :=
  let n := N_of_ascii a in (lo <=? n)%N && (n <=? hi)%N.

Fixpoint encodable (s : string) : bool :=
  match s with
  | EmptyString => true
  | String a s1 =>
      if in_range 0 127 a then encodable s1
      else
        match s1 with
        | EmptyString => false
        | String b s2 =>
            if in_range 194 223 a then is_tail b && encodable s2
            else
              match s2 with
              | EmptyString => false
              | String c s3 =>
                  if in_range 224 239 a then
                    (if in_range 224 224 a then in_range 160 191 b
                     else if in_range 237 237 a then in_range 128 159 b
                     else is_tail b) && is_tail c && encodable s3
                  else
                    match s3 with
                    | EmptyString => false
                    | String d s4 =>
                        in_range 240 244 a &&
                        (if in_range 240 240 a then in_range 144 191 b
                         else if in_range 244 244 a then in_range 128 143 b
                         else is_tail b) && is_tail c && is_tail d && encodable s4
                    end
              end
        end
  end.

(** [format(s, "<w>s")]: left-justified in a field of [w] characters. *)
Definition ljust (w : nat) (s : string) : string :=
  s +:+ repeat " " (w - len s).

(** [format(z, "0<w>d")] for [z >= 0]. *)
Definition zfill (w : nat) (s : string) : string :=
  repeat "0" (w - String.length s) +:+ s.

(** [format(x, ".<ndigits>f")]. *)
Definition format_f (ndigits : nat) (x : spec_float) : string :=
  let fixed (s : bool) (n : Z) : string :=
    let ds := zfill (S ndigits) (of_int n) in
    let k := (String.length ds - ndigits)%nat in
    (if s then "-" else "") +:+ String.substring 0 k ds +:+
    (match ndigits with
     | O => ""
     | _ => "." +:+ String.substring k ndigits ds
     end) in
  match x with
  | S754_nan => "nan"
  | S754_infinity s => if s then "-inf" else "inf"
  | S754_zero s => fixed s 0
  | S754_finite s m e =>
      fixed s (pyfloat.round_half_even_scaled m e (10 ^ Z.of_nat ndigits))
  end.

End pystr.

(** ** Python [datetime] *)

Module datetime.

(** A naive [datetime], as its fields. *)
Record datetime : Type := mk_datetime {
  year : Z;
  month : Z;
  day : Z;
  hour : Z;
  minute : Z;
  second : Z;
  microsecond : Z
}.

Definition is_leap (y : Z) : bool :=
  (y mod 4 =? 0) && (negb (y mod 100 =? 0) || (y mod 400 =? 0)).

Definition days_before_year (y : Z) : Z :=
  let y' := y - 1 in
  y' * 365 + y' / 4 - y' / 100 + y' / 400.

Definition days_before_month (y m : Z) : Z :=
  nth (Z.to_nat m) [0; 0; 31; 59; 90; 120; 151; 181; 212; 243; 273; 304; 334] 0
  + (if (2 <? m) && is_leap y then 1 else 0).

Definition ymd2ord (y m d : Z) : Z :=
  days_before_year y + days_before_month y m + d.

Definition to_microseconds (t : datetime) : Z :=
  (((ymd2ord (year t) (month t) (day t) * 24 + hour t) * 60 + minute t) * 60
   + second t) * 1000000 + microsecond t.

(** [a - b], a [timedelta], held as its number of microseconds. *)
Definition sub (a b : datetime) : Z := to_microseconds a - to_microseconds b.

(** [timedelta.total_seconds()]: the microseconds divided by [10**6]. A
    [timedelta] spans fewer than [10**9] days, so the quotient is always
    in range. *)
Definition total_seconds (td : Z) : spec_float :=
  SFdiv pyfloat.prec pyfloat.emax (pyfloat.int_operand td) (pyfloat.int_operand 1000000).

Definition field (w : nat) (z : Z) : string := pystr.zfill w (pystr.of_int z).

Definition isoformat (t : datetime) : string :=
  field 4 (year t) +:+ "-" +:+ field 2 (month t) +:+ "-" +:+ field 2 (day t) +:+ "T" +:+
  field 2 (hour t) +:+ ":" +:+ field 2 (minute t) +:+ ":" +:+ field 2 (second t) +:+
  (if microsecond t =? 0 then "" else "." +:+ field 6 (microsecond t)).

(** [str(t)]: [isoformat] with a space for the ["T"]. *)
Definition str (t : datetime) : string :=
  field 4 (year t) +:+ "-" +:+ field 2 (month t) +:+ "-" +:+ field 2 (day t) +:+ " " +:+
  field 2 (hour t) +:+ ":" +:+ field 2 (minute t) +:+ ":" +:+ field 2 (second t) +:+
  (if microsecond t =? 0 then "" else "." +:+ field 6 (microsecond t)).

(** [t.strftime('%Y-%m-%d %H:%M:%S')]. The C library formats the year:
    glibc writes it without padding, others pad it to four digits; the
    two agree from the year 1000 on. *)
Definition strftime_ymd_hms (t : datetime) : string :=
  pystr.of_int (year t) +:+ "-" +:+ field 2 (month t) +:+ "-" +:+ field 2 (day t) +:+ " " +:+
  field 2 (hour t) +:+ ":" +:+ field 2 (minute t) +:+ ":" +:+ field 2 (second t).

End datetime.

Abbreviation datetime := datetime.datetime.

(** ** slashy_test.py *)

Module slashy_test.

(** The dict built by [record_test]; its keys are fixed and it is never
    written to after it is built. *)
Record TestResult : Type := mk_result {
  shortcut : string;
  description : string;
  status : string;
  timestamp : string;
  notes : string
}.

(** The attributes of a [SlashyShortcutTester]; [test_results] is a
    reference to a list object on the heap. *)
Record SlashyShortcutTester : Type := mk_tester {
  test_results : loc;
  total_tests : Z;
  passed_tests : Z;
  failed_tests : Z;
  partial_tests : Z;
  error_tests : Z;
  start_time : datetime
}.

(** The [report] dict of [save_json_report] and its two inner dicts. *)
Record Metadata : Type := mk_metadata {
  application : string;
  platform : string;
  browser : string;
  url : string;
  metadata_start_time : string;
  end_time : string
}.

Record Summary : Type := mk_summary {
  summary_total_tests : Z;
  passed : Z;
  partial : Z;
  failed : Z;
  errors : Z;
  pass_rate : pyfloat.float
}.

Record Report : Type := mk_report {
  metadata : Metadata;
  summary : Summary;
  report_test_results : loc
}.

(** What [json.dump] writes for a [Report]: the same tree with the list
    reference resolved to the elements the list holds at that moment. *)
Record JsonReport : Type := mk_json {
  json_metadata : Metadata;
  json_summary : Summary;
  json_test_results : list TestResult
}.

(** The world a method runs in: the heap of list objects, the lines printed
    so far, the files written, the paths that can be opened for writing,
    and the clock as the sequence of its future readings with the number of
    readings taken. *)
Record World : Type := mk_world {
  heap : gmap loc (list TestResult);
  stdout : list string;
  files : gmap string JsonReport;
  writable : string -> bool;
  clock : nat -> datetime;
  ticks : nat
}.

Record State : Type := mk_state {
  self : SlashyShortcutTester;
  world : World
}.

Definition with_self (f : SlashyShortcutTester -> SlashyShortcutTester) (s : State) : State :=
  mk_state (f (self s)) (world s).

Definition with_world (f : World -> World) (s : State) : State :=
  mk_state (self s) (f (world s)).

(** [datetime.now()] *)
Definition datetime_now : M State datetime :=
  fun s =>
    let w := world s in
    (Ok (clock w (ticks w)),
     with_world (fun w => mk_world (heap w) (stdout w) (files w) (writable w) (clock w) (S (ticks w))) s).

(** [print(line)], for a line that standard output can encode. *)
Definition print (line : string) : M State unit :=
  modify (with_world (fun w =>
    mk_world (heap w) (stdout w ++ [line]) (files w) (writable w) (clock w) (ticks w))).

(** [l.append(x)] on the list object at [l]. A reference held by a running
    program always points to an allocated object; [heap w !!! l] reads it. *)
Definition list_append (l : loc) (x : TestResult) : M State unit :=
  modify (with_world (fun w =>
    mk_world (<[l := (heap w !!! l) ++ [x]]> (heap w)) (stdout w) (files w) (writable w) (clock w) (ticks w))).

(** [with open(path, "w") as f: json.dump(report, f, indent=2)]. [open]
    raises [OSError] when the path cannot be opened for writing, and
    nothing catches it. The document is then written whole: the ints of
    the report are taken to be [pystr.convertible], as counters that count
    calls are. *)
Definition json_dump (report : Report) (path : string) : M State unit :=
  fun s =>
    let w := world s in
    if writable w path then
      let doc :=
        mk_json (metadata report) (summary report) (heap w !!! report_test_results report) in
      (Ok tt,
       mk_state (self s)
         (mk_world (heap w) (stdout w) (<[path := doc]> (files w)) (writable w)
            (clock w) (ticks w)))
    else (Raise OSError, s).

(** [SlashyShortcutTester()] *)
Definition __init__ (w : World) : State :=
  let l := fresh (dom (heap w)) in
  mk_state
    (mk_tester l 0 0 0 0 0 (clock w (ticks w)))
    (mk_world (<[l := []]> (heap w)) (stdout w) (files w) (writable w) (clock w) (S (ticks w))).

Definition add_passed (t : SlashyShortcutTester) : SlashyShortcutTester :=
  mk_tester (test_results t) (total_tests t) (passed_tests t + 1) (failed_tests t)
    (partial_tests t) (error_tests t) (start_time t).

Definition add_failed (t : SlashyShortcutTester) : SlashyShortcutTester :=
  mk_tester (test_results t) (total_tests t) (passed_tests t) (failed_tests t + 1)
    (partial_tests t) (error_tests t) (start_time t).

Definition add_partial (t : SlashyShortcutTester) : SlashyShortcutTester :=
  mk_tester (test_results t) (total_tests t) (passed_tests t) (failed_tests t)
    (partial_tests t + 1) (error_tests t) (start_time t).

Definition add_error (t : SlashyShortcutTester) : SlashyShortcutTester :=
  mk_tester (test_results t) (total_tests t) (passed_tests t) (failed_tests t)
    (partial_tests t) (error_tests t + 1) (start_time t).

Definition add_total (t : SlashyShortcutTester) : SlashyShortcutTester :=
  mk_tester (test_results t) (total_tests t + 1) (passed_tests t) (failed_tests t)
    (partial_tests t) (error_tests t) (start_time t).

(** [record_test(shortcut, description, status, notes)]; a caller that
    leaves [notes] out passes the empty string. *)
Definition record_test (shortcut description status notes : string) : M State unit :=
  now ← datetime_now;
  let result := mk_result shortcut description status (datetime.isoformat now) notes in
  l ← gets (fun s => test_results (self s));
  list_append l result;;
  (if String.eqb status "PASS" then modify (with_self add_passed)
   else if String.eqb status "FAIL" then modify (with_self add_failed)
   else if String.eqb status "PARTIAL" then modify (with_self add_partial)
   else if String.eqb status "ERROR" then modify (with_self add_error)
   else mret tt);;
  modify (with_self add_total);;
  let status_icon :=
    if String.eqb status "PASS" then "✓"
    else if String.eqb status "FAIL" then "✗" else "⚠" in
  print (status_icon +:+ " " +:+ pystr.ljust 14 shortcut +:+ " → " +:+
         pystr.ljust 28 description +:+ " [" +:+ status +:+ "]").

(** [get_pass_rate()] *)
Definition get_pass_rate : M State pyfloat.float :=
  t ← gets self;
  if total_tests t =? 0 then mret (S754_zero false)
  else
    q ← lift_result (pyfloat.int_true_div (passed_tests t) (total_tests t));
    mret (pyfloat.mul q (pyfloat.of_int 100)).

(** The [if]/[elif]/[else] of [print_summary] that chooses
    [overall_status] from the local [pass_rate]. *)
Definition overall_status (pass_rate : pyfloat.float) : string :=
  if pyfloat.ge pass_rate (pyfloat.of_int 80) then "✓ PRODUCTION READY"
  else if pyfloat.ge pass_rate (pyfloat.of_int 60) then "⚠ MOSTLY FUNCTIONAL"
  else "✗ NEEDS IMPROVEMENT".

(** [print_summary()] *)
Definition print_summary : M State unit :=
  end_time ← datetime_now;
  t0 ← gets (fun s => start_time (self s));
  let duration := datetime.total_seconds (datetime.sub end_time t0) in
  pass_rate ← get_pass_rate;
  let overall_status := overall_status pass_rate in
  t ← gets self;
  print "📊 TEST RESULTS SUMMARY";;
  print (pystr.repeat "=" 80);;
  print ("Total Tests:     " +:+ pystr.of_int (total_tests t));;
  print ("Passed:          " +:+ pystr.of_int (passed_tests t) +:+
         " (" +:+ pystr.format_f 1 pass_rate +:+ "%)");;
  print ("Failed:          " +:+ pystr.of_int (failed_tests t));;
  print ("Partial:         " +:+ pystr.of_int (partial_tests t));;
  print ("Errors:          " +:+ pystr.of_int (error_tests t));;
  print ("Duration:        " +:+ pystr.format_f 2 duration +:+ "s");;
  print "";;
  print ("Overall Status:  " +:+ overall_status);;
  print (pystr.repeat "=" 80);;
  print "".

(** The dict literal bound to [report] in [save_json_report]. *)
Definition build_report : M State Report :=
  t ← gets self;
  now ← datetime_now;
  rate ← get_pass_rate;
  rounded ← lift_result (pyfloat.round rate 2);
  mret (mk_report
          (mk_metadata "Slashy Mail" "Mac OS" "Chrome" "https://slashy.com"
             (datetime.isoformat (start_time t)) (datetime.isoformat now))
          (mk_summary (total_tests t) (passed_tests t) (partial_tests t)
             (failed_tests t) (error_tests t) rounded)
          (test_results t)).

(** [save_json_report()] *)
Definition save_json_report : M State unit :=
  report ← build_report;
  json_dump report "slashy_test_report.json";;
  print "📁 Report saved to: slashy_test_report.json";;
  print "".

(** A call [record_test(shortcut, description, status, notes)], as the tuple
    of its arguments, and a run of such calls in order. *)
Definition Call : Type := string * string * string * string.

Definition call_status (c : Call) : string := c.1.2.

Fixpoint record_all (calls : list Call) : M State unit :=
  match calls with
  | [] => mret tt
  | (shortcut, description, status, notes) :: rest =>
      record_test shortcut description status notes;;
      record_all rest
  end.

(** The elements of [self.test_results], read through the heap. *)
Definition recorded (s : State) : list TestResult :=
  heap (world s) !!! test_results (self s).

(** The fresh recorder of world [w] after the calls [calls]. *)
Definition after (w : World) (calls : list Call) : State :=
  (record_all calls (__init__ w)).2.

(** The dict [record_test] builds for the call [c] when the clock reads
    [now], and the dicts of a run of calls whose first clock reading is
    reading number [k]. *)
Definition outcome (now : datetime) (c : Call) : TestResult :=
  let '(shortcut, description, status, notes) := c in
  mk_result shortcut description status (datetime.isoformat now) notes.

Fixpoint outcomes (clk : nat -> datetime) (k : nat) (calls : list Call) : list TestResult :=
  match calls with
  | [] => []
  | c :: rest => outcome (clk k) c :: outcomes clk (S k) rest
  end.

(** The line [record_test] prints for the call [c]. *)
Definition result_line (c : Call) : string :=
  let '(shortcut, description, status, notes) := c in
  (if String.eqb status "PASS" then "✓"
   else if String.eqb status "FAIL" then "✗" else "⚠") +:+ " " +:+
  pystr.ljust 14 shortcut +:+ " → " +:+ pystr.ljust 28 description +:+
  " [" +:+ status +:+ "]".

(** The counter that [record_test] steps for a status, as a function on the
    recorder's attributes. *)
Definition count_status (status : string) (t : SlashyShortcutTester) : SlashyShortcutTester :=
  if String.eqb status "PASS" then add_passed t
  else if String.eqb status "FAIL" then add_failed t
  else if String.eqb status "PARTIAL" then add_partial t
  else if String.eqb status "ERROR" then add_error t
  else t.

(** How many of the calls carry the status [name]. *)
Definition tally (name : string) (calls : list Call) : Z :=
  Z.of_nat (length (filter (fun c => call_status c = name) calls)).

(** The statuses that have a counter. *)
Definition recognized (status : string) : Prop :=
  status ∈ ["PASS"; "FAIL"; "PARTIAL"; "ERROR"].

(** The twelve lines [print_summary] prints for a recorder [t], a pass rate
    and a duration. *)
Definition summary_lines (t : SlashyShortcutTester) (rate duration : pyfloat.float) : list string :=
  [ "📊 TEST RESULTS SUMMARY";
    pystr.repeat "=" 80;
    "Total Tests:     " +:+ pystr.of_int (total_tests t);
    "Passed:          " +:+ pystr.of_int (passed_tests t) +:+
      " (" +:+ pystr.format_f 1 rate +:+ "%)";
    "Failed:          " +:+ pystr.of_int (failed_tests t);
    "Partial:         " +:+ pystr.of_int (partial_tests t);
    "Errors:          " +:+ pystr.of_int (error_tests t);
    "Duration:        " +:+ pystr.format_f 2 duration +:+ "s";
    "";
    "Overall Status:  " +:+ overall_status rate;
    pystr.repeat "=" 80;
    "" ].

(** A state with one more clock reading taken, and a state with further
    lines printed. *)
Definition tick (s : State) : State :=
  mk_state (self s)
    (mk_world (heap (world s)) (stdout (world s)) (files (world s)) (writable (world s))
       (clock (world s)) (S (ticks (world s)))).

Definition printed (lines : list string) (s : State) : State :=
  mk_state (self s)
    (mk_world (heap (world s)) (stdout (world s) ++ lines) (files (world s)) (writable (world s))
       (clock (world s)) (ticks (world s))).

(** The duration [print_summary] computes in state [s]. *)
Definition duration (s : State) : pyfloat.float :=
  datetime.total_seconds
    (datetime.sub (clock (world s) (ticks (world s))) (start_time (self s))).

(** The [report] dict for recorder [t], clock reading [now] and rounded
    pass rate [rounded]. *)
Definition report_of (t : SlashyShortcutTester) (now : datetime) (rounded : pyfloat.float) : Report :=
  mk_report
    (mk_metadata "Slashy Mail" "Mac OS" "Chrome" "https://slashy.com"
       (datetime.isoformat (start_time t)) (datetime.isoformat now))
    (mk_summary (total_tests t) (passed_tests t) (partial_tests t)
       (failed_tests t) (error_tests t) rounded)
    (test_results t).

(** A world to run examples in: nothing allocated, printed or written,
    every path writable, and a clock that advances by a microsecond per
    reading. *)
Definition example_world : World :=
  mk_world ∅ [] ∅ (fun _ => true)
    (fun k => datetime.mk_datetime 2026 1 1 0 0 0 (Z.of_nat k)) 0.

(** [run_all_tests()] *)
Definition run_all_tests : M State unit :=
  print (pystr.repeat "=" 80);;
  print "🧪 SLASHY KEYBOARD SHORTCUT TEST SUITE - OPTION 1";;
  print (pystr.repeat "=" 80);;
  t0 ← gets (fun s => start_time (self s));
  print ("Start Time: " +:+ datetime.strftime_ymd_hms t0);;
  print "Total Tests: 26";;
  print (pystr.repeat "=" 80);;
  print "";;
  print "✓ Successfully navigated to Slashy";;
  print "";;
  print "🔬 Testing Keyboard Shortcuts:";;
  print (pystr.repeat "─" 80);;
  record_test "c" "Compose mail" "PASS" "Opens full compose window with all fields";;
  record_test "r" "Reply" "PASS" "Opens reply composer on right side";;
  record_test "j" "Move down" "PASS" "Navigates to next email in list";;
  record_test "k" "Move up" "PASS" "Navigates to previous email";;
  record_test "e" "Mark as done" "PASS" "Moves email to Done folder";;
  record_test "s" "Star email" "PASS" "Adds star and updates Starred count";;
  record_test "h" "Set reminder" "PASS" "Opens reminder dialog with time options";;
  record_test "cmd+b" "Toggle left sidebar" "PASS" "Collapses/expands left panel smoothly";;
  record_test "cmd+." "Toggle right sidebar" "PASS" "Collapses/expands right panel smoothly";;
  record_test "Tab" "Cycle label forward" "PASS" "Cycles through labels (Important → Calendar)";;
  record_test "Shift+Tab" "Cycle label backward" "PASS"
    "Cycles back through labels (Calendar → Important)";;
  record_test "cmd+Up" "Jump to top" "FAIL" "No action triggered";;
  record_test "cmd+Down" "Jump to bottom" "FAIL" "No action triggered";;
  record_test "u" "Toggle read/unread" "PARTIAL" "Navigates away instead of toggling";;
  record_test "#" "Move to trash" "FAIL" "Special character - no action";;
  record_test "!" "Mark as spam" "FAIL" "Special character - no action";;
  record_test "/" "Search" "FAIL" "Types character instead of opening search";;
  record_test "n+l" "Create label" "PASS" "Opens label creation dialog";;
  record_test "n+s" "Create snippet" "PASS" "Opens snippet creation dialog";;
  record_test "p+a" "AI agent chat" "FAIL" "No action triggered";;
  record_test "cmd+a" "Select all from here" "PASS" "Selects all visible emails";;
  record_test "cmd+shift+a" "Select all emails" "PASS" "Selects all emails in mailbox";;
  record_test "[" "Previous inbox" "PASS" "Cycles to previous inbox";;
  record_test "]" "Next inbox" "PASS" "Cycles to next inbox";;
  record_test "Enter" "Open email" "PASS" "Opens focused email";;
  record_test "cmd+u" "Block sender" "PASS" "Blocks sender from current email";;
  print "";;
  print_summary;;
  save_json_report.

(** [main()]: the value returned is the reference [tester.test_results]. *)
Definition main (w : World) : result loc * State :=
  let tester := __init__ w in
  match run_all_tests tester with
  | (Ok _, s) => (Ok (test_results (self s)), s)
  | (Raise e, s) => (Raise e, s)
  end.

(** The calls [run_all_tests] makes to [record_test], in order. *)
Definition run_all_tests_calls : list Call :=
  [ ("c", "Compose mail", "PASS", "Opens full compose window with all fields");
    ("r", "Reply", "PASS", "Opens reply composer on right side");
    ("j", "Move down", "PASS", "Navigates to next email in list");
    ("k", "Move up", "PASS", "Navigates to previous email");
    ("e", "Mark as done", "PASS", "Moves email to Done folder");
    ("s", "Star email", "PASS", "Adds star and updates Starred count");
    ("h", "Set reminder", "PASS", "Opens reminder dialog with time options");
    ("cmd+b", "Toggle left sidebar", "PASS", "Collapses/expands left panel smoothly");
    ("cmd+.", "Toggle right sidebar", "PASS", "Collapses/expands right panel smoothly");
    ("Tab", "Cycle label forward", "PASS", "Cycles through labels (Important → Calendar)");
    ("Shift+Tab", "Cycle label backward", "PASS",
     "Cycles back through labels (Calendar → Important)");
    ("cmd+Up", "Jump to top", "FAIL", "No action triggered");
    ("cmd+Down", "Jump to bottom", "FAIL", "No action triggered");
    ("u", "Toggle read/unread", "PARTIAL", "Navigates away instead of toggling");
    ("#", "Move to trash", "FAIL", "Special character - no action");
    ("!", "Mark as spam", "FAIL", "Special character - no action");
    ("/", "Search", "FAIL", "Types character instead of opening search");
    ("n+l", "Create label", "PASS", "Opens label creation dialog");
    ("n+s", "Create snippet", "PASS", "Opens snippet creation dialog");
    ("p+a", "AI agent chat", "FAIL", "No action triggered");
    ("cmd+a", "Select all from here", "PASS", "Selects all visible emails");
    ("cmd+shift+a", "Select all emails", "PASS", "Selects all emails in mailbox");
    ("[", "Previous inbox", "PASS", "Cycles to previous inbox");
    ("]", "Next inbox", "PASS", "Cycles to next inbox");
    ("Enter", "Open email", "PASS", "Opens focused email");
    ("cmd+u", "Block sender", "PASS", "Blocks sender from current email") ].

(** The eleven lines [run_all_tests] prints before its first
    [record_test]. *)
Definition banner_lines (t : SlashyShortcutTester) : list string :=
  [ pystr.repeat "=" 80;
    "🧪 SLASHY KEYBOARD SHORTCUT TEST SUITE - OPTION 1";
    pystr.repeat "=" 80;
    "Start Time: " +:+ datetime.strftime_ymd_hms (start_time t);
    "Total Tests: 26";
    pystr.repeat "=" 80;
    "";
    "✓ Successfully navigated to Slashy";
    "";
    "🔬 Testing Keyboard Shortcuts:";
    pystr.repeat "─" 80 ].

(** A call of one of the recorder's methods, and a run of such calls on
    one recorder. *)
Inductive method : Type :=
  | call_record_test (c : Call)
  | call_get_pass_rate
  | call_print_summary
  | call_save_json_report.

Definition invoke (m : method) : M State unit :=
  match m with
  | call_record_test (shortcut, description, status, notes) =>
      record_test shortcut description status notes
  | call_get_pass_rate => get_pass_rate;; mret tt
  | call_print_summary => print_summary
  | call_save_json_report => save_json_report
  end.

Fixpoint invoke_all (ms : list method) : M State unit :=
  match ms with
  | [] => mret tt
  | m :: rest => invoke m;; invoke_all rest
  end.

(** The statuses passed to [record_test] in a run of method calls. *)
Definition recorded_statuses (ms : list method) : list string :=
  omap (fun m => match m with
                 | call_record_test c => Some (call_status c)
                 | _ => None
                 end) ms.

(** How many of the dicts carry the status [name]. *)
Definition status_count (name : string) (rs : list TestResult) : Z :=
  Z.of_nat (length (filter (fun r => status r = name) rs)).

(** What no method changes: the list object, the start time, the clock and
    the paths that can be written. *)
Definition same_recorder (s s' : State) : Prop :=
  test_results (self s') = test_results (self s) /\
  start_time (self s') = start_time (self s) /\
  clock (world s') = clock (world s) /\
  writable (world s') = writable (world s).

(** The calls whose line [record_test] can print, and the runs of method
    calls whose [record_test] calls are such. The notes are not printed. *)
Definition call_encodable (c : Call) : bool :=
  let '(shortcut, description, status, notes) := c in
  pystr.encodable shortcut && pystr.encodable description && pystr.encodable status.

Definition method_encodable (m : method) : bool :=
  match m with
  | call_record_test c => call_encodable c
  | _ => true
  end.


(** The counters agree with the recorded sequence. *)
Definition consistent (s : State) : Prop :=
  total_tests (self s) = Z.of_nat (length (recorded s)) /\
  passed_tests (self s) = status_count "PASS" (recorded s) /\
  failed_tests (self s) = status_count "FAIL" (recorded s) /\
  partial_tests (self s) = status_count "PARTIAL" (recorded s) /\
  error_tests (self s) = status_count "ERROR" (recorded s).

End slashy_test.

(** ** slashy_shortcut_tests.py

    The second recorder class. Its constructor, [record_test] and
    [get_pass_rate] are embedded; they are the methods that touch the
    counters. *)

Module slashy_shortcut_tests.

Record TestResult : Type := mk_result {
  test_id : string;
  shortcut : string;
  description : string;
  status : string;
  timestamp : string;
  notes : string
}.

(** This class has no [error_tests] attribute. *)
Record SlashyShortcutTester : Type := mk_tester {
  test_results : loc;
  total_tests : Z;
  passed_tests : Z;
  failed_tests : Z;
  partial_tests : Z;
  start_time : datetime
}.

Record World : Type := mk_world {
  heap : gmap loc (list TestResult);
  stdout : list string;
  clock : nat -> datetime;
  ticks : nat
}.

Record State : Type := mk_state {
  self : SlashyShortcutTester;
  world : World
}.

Definition with_self (f : SlashyShortcutTester -> SlashyShortcutTester) (s : State) : State :=
  mk_state (f (self s)) (world s).

Definition with_world (f : World -> World) (s : State) : State :=
  mk_state (self s) (f (world s)).

Definition datetime_now : M State datetime :=
  fun s =>
    let w := world s in
    (Ok (clock w (ticks w)),
     with_world (fun w => mk_world (heap w) (stdout w) (clock w) (S (ticks w))) s).

Definition list_append (l : loc) (x : TestResult) : M State unit :=
  modify (with_world (fun w =>
    mk_world (<[l := (heap w !!! l) ++ [x]]> (heap w)) (stdout w) (clock w) (ticks w))).

(** [SlashyShortcutTester()] *)
Definition __init__ (w : World) : State :=
  let l := fresh (dom (heap w)) in
  mk_state
    (mk_tester l 0 0 0 0 (clock w (ticks w)))
    (mk_world (<[l := []]> (heap w)) (stdout w) (clock w) (S (ticks w))).

Definition add_passed (t : SlashyShortcutTester) : SlashyShortcutTester :=
  mk_tester (test_results t) (total_tests t) (passed_tests t + 1) (failed_tests t)
    (partial_tests t) (start_time t).

Definition add_failed (t : SlashyShortcutTester) : SlashyShortcutTester :=
  mk_tester (test_results t) (total_tests t) (passed_tests t) (failed_tests t + 1)
    (partial_tests t) (start_time t).

Definition add_partial (t : SlashyShortcutTester) : SlashyShortcutTester :=
  mk_tester (test_results t) (total_tests t) (passed_tests t) (failed_tests t)
    (partial_tests t + 1) (start_time t).

Definition add_total (t : SlashyShortcutTester) : SlashyShortcutTester :=
  mk_tester (test_results t) (total_tests t + 1) (passed_tests t) (failed_tests t)
    (partial_tests t) (start_time t).

(** [record_test(test_id, shortcut, description, status, notes)] *)
Definition record_test (test_id shortcut description status notes : string) : M State unit :=
  now ← datetime_now;
  let result :=
    mk_result test_id shortcut description status (datetime.isoformat now) notes in
  l ← gets (fun s => test_results (self s));
  list_append l result;;
  (if String.eqb status "PASS" then modify (with_self add_passed)
   else if String.eqb status "FAIL" then modify (with_self add_failed)
   else if String.eqb status "PARTIAL" then modify (with_self add_partial)
   else mret tt);;
  modify (with_self add_total).

(** [get_pass_rate()] *)
Definition get_pass_rate : M State pyfloat.float :=
  t ← gets self;
  if total_tests t =? 0 then mret (S754_zero false)
  else
    q ← lift_result (pyfloat.int_true_div (passed_tests t) (total_tests t));
    mret (pyfloat.mul q (pyfloat.of_int 100)).

(** A call as the tuple of its arguments, the test id first. *)
Definition Call : Type := string * (string * string * string * string).

Fixpoint record_all (calls : list Call) : M State unit :=
  match calls with
  | [] => mret tt
  | (test_id, (shortcut, description, status, notes)) :: rest =>
      record_test test_id shortcut description status notes;;
      record_all rest
  end.

Definition after (w : World) (calls : list Call) : State :=
  (record_all calls (__init__ w)).2.

(** The same call without its test id, as [slashy_test.record_test] takes
    it. *)
Definition without_id (c : Call) : slashy_test.Call := c.2.

(** The elements of [self.test_results], read through the heap. *)
Definition recorded (s : State) : list TestResult :=
  heap (world s) !!! test_results (self s).

(** [print(line)], for a line that standard output can encode. *)
Definition print (line : string) : M State unit :=
  modify (with_world (fun w =>
    mk_world (heap w) (stdout w ++ [line]) (clock w) (ticks w))).

(** [print_summary()]; the pass rate is computed while the fifth line is
    formatted. *)
Definition print_summary : M State unit :=
  end_time ← datetime_now;
  t0 ← gets (fun s => start_time (self s));
  let duration := datetime.total_seconds (datetime.sub end_time t0) in
  print (pystr.repeat "=" 80);;
  print "TEST SUMMARY";;
  print (pystr.repeat "=" 80);;
  t ← gets self;
  print ("Total Tests:     " +:+ pystr.of_int (total_tests t));;
  rate ← get_pass_rate;
  print ("Passed:          " +:+ pystr.of_int (passed_tests t) +:+
         " (" +:+ pystr.format_f 1 rate +:+ "%)");;
  print ("Partial:         " +:+ pystr.of_int (partial_tests t));;
  print ("Failed:          " +:+ pystr.of_int (failed_tests t));;
  print ("Duration:        " +:+ pystr.format_f 2 duration +:+ "s");;
  print (pystr.repeat "=" 80);;
  print "".

(** The [categories] dict of [print_detailed_results], in insertion
    order. *)
Definition categories : list (string * list string) :=
  [ ("Composing & Replying", ["001"; "002"]);
    ("Navigation", ["003"; "004"; "005"; "006"]);
    ("Email Actions", ["007"; "008"; "009"; "010"; "011"; "012"]);
    ("Features", ["013"; "014"; "015"; "016"; "017"]);
    ("Selection", ["018"; "019"]);
    ("Interface", ["020"; "021"]);
    ("Label Management", ["022"; "023"; "024"; "025"]);
    ("Email Control", ["026"; "027"; "028"]) ].

(** The body of the loop over [categories.items()]. *)
Definition print_category (entry : string * list string) : M State unit :=
  let '(category, test_ids) := entry in
  results ← gets recorded;
  let category_results := filter (fun r => test_id r ∈ test_ids) results in
  let passed :=
    Z.of_nat (length (filter (fun r => status r = "PASS") category_results)) in
  let total :=
    Z.of_nat (length (filter (fun r => status r ∈ ["PASS"; "FAIL"; "PARTIAL"])
                        category_results)) in
  if 0 <? total then
    q ← lift_result (pyfloat.int_true_div passed total);
    let percentage := pyfloat.mul q (pyfloat.of_int 100) in
    let status := if passed =? total then "✓" else "✗" in
    print (status +:+ " " +:+ pystr.ljust 25 category +:+ ": " +:+
           pystr.of_int passed +:+ "/" +:+ pystr.of_int total +:+ " passed (" +:+
           pystr.format_f 0 percentage +:+ "%)")
  else mret tt.

(** The body of the loop over [self.test_results]. *)
Definition print_result (result : TestResult) : M State unit :=
  let status_display := status result in
  let status_display :=
    if String.eqb status_display "PASS" then "✓ PASS"
    else if String.eqb status_display "FAIL" then "✗ FAIL"
    else if String.eqb status_display "PARTIAL" then "⚠ PARTIAL"
    else "- " +:+ status_display in
  print (test_id result +:+ " " +:+ pystr.ljust 15 (shortcut result) +:+ " " +:+
         pystr.ljust 10 status_display +:+ " " +:+ description result).

(** [print_detailed_results()] *)
Definition print_detailed_results : M State unit :=
  print "RESULTS BY CATEGORY:";;
  print "";;
  for_each categories print_category;;
  print "";;
  print "DETAILED RESULTS:";;
  print "";;
  print (pystr.ljust 3 "ID" +:+ " " +:+ pystr.ljust 15 "Shortcut" +:+ " " +:+
         pystr.ljust 10 "Status" +:+ " " +:+ "Description");;
  print (pystr.repeat "-" 80);;
  results ← gets recorded;
  for_each results print_result;;
  print "".

(** The [report] dict of [save_json_report] and its two inner dicts. *)
Record Metadata : Type := mk_metadata {
  application : string;
  platform : string;
  browser : string;
  url : string;
  metadata_start_time : string;
  end_time : string
}.

Record Summary : Type := mk_summary {
  summary_total_tests : Z;
  passed : Z;
  partial : Z;
  failed : Z;
  pass_rate : pyfloat.float
}.

Record Report : Type := mk_report {
  metadata : Metadata;
  summary : Summary;
  report_test_results : loc
}.

(** A [Report] with its list reference resolved: what [json.dumps]
    serializes. *)
Record JsonReport : Type := mk_json {
  json_metadata : Metadata;
  json_summary : Summary;
  json_test_results : list TestResult
}.

(** The dict literal bound to [report] in [save_json_report]. *)
Definition build_report : M State Report :=
  t ← gets self;
  now ← datetime_now;
  rate ← get_pass_rate;
  rounded ← lift_result (pyfloat.round rate 2);
  mret (mk_report
          (mk_metadata "Slashy Mail" "Mac OS" "Chrome" "https://slashy.com"
             (datetime.isoformat (start_time t)) (datetime.isoformat now))
          (mk_summary (total_tests t) (passed_tests t) (partial_tests t)
             (failed_tests t) rounded)
          (test_results t)).

(** The status line [main] prints for a pass rate. *)
Definition overall_status (pass_rate : pyfloat.float) : string :=
  if pyfloat.ge pass_rate (pyfloat.of_int 80) then "✓ PRODUCTION READY"
  else if pyfloat.ge pass_rate (pyfloat.of_int 60) then "⚠ MOSTLY FUNCTIONAL"
  else "✗ NEEDS IMPROVEMENT".

(** The calls [run_all_tests] makes to [record_test], in order. *)
Definition run_all_tests_calls : list Call :=
  [
    ("001", ("C", "Compose mail", "PASS",
      "Opens full compose window with all fields"));
    ("002", ("R", "Reply", "PASS",
      "Opens reply composer on right side"));
    ("003", ("J", "Move down", "PASS",
      "Navigates to next email in list"));
    ("004", ("K", "Move up", "PASS",
      "Navigates to previous email"));
    ("005", ("Cmd+Up", "Jump to top", "FAIL",
      "No action triggered"));
    ("006", ("Cmd+Down", "Jump to bottom", "FAIL",
      "Not tested (likely same as Up)"));
    ("007", ("E", "Mark as done", "PASS",
      "Moves email to Done folder"));
    ("008", ("Shift+E", "Mark not done", "UNTESTED",
      "Inverse of E - not tested"));
    ("009", ("S", "Star email", "PASS",
      "Adds star and updates Starred count"));
    ("010", ("U", "Toggle read/unread", "PARTIAL",
      "Navigates away instead of toggling"));
    ("011", ("#", "Move to trash", "FAIL",
      "Special character - no action"));
    ("012", ("!", "Mark as spam", "FAIL",
      "Special character - no action"));
    ("013", ("H", "Set reminder", "PASS",
      "Opens reminder dialog with time options"));
    ("014", ("/", "Search", "FAIL",
      "Types character instead of opening search"));
    ("015", ("N+L", "Create label", "PASS",
      "Opens label creation dialog"));
    ("016", ("N+S", "Create snippet", "PASS",
      "Opens snippet creation dialog"));
    ("017", ("P+A", "AI agent chat", "FAIL",
      "No action triggered"));
    ("018", ("Cmd+A", "Select all from here", "PASS",
      "Selects all visible emails"));
    ("019", ("Cmd+Shift+A", "Select all emails", "FAIL",
      "No action triggered"));
    ("020", ("Cmd+B", "Toggle left sidebar", "PASS",
      "Collapses/expands left panel smoothly"));
    ("021", ("Cmd+.", "Toggle right sidebar", "PASS",
      "Collapses/expands right panel smoothly"));
    ("022", ("Tab", "Cycle label tabs forward", "PASS",
      "Cycles through labels (Important → Calendar)"));
    ("023", ("Shift+Tab", "Cycle label tabs back", "PASS",
      "Cycles back through labels (Calendar → Important)"));
    ("024", ("[", "Cycle to previous inbox", "UNTESTED",
      "Requires multiple inboxes"));
    ("025", ("]", "Cycle to next inbox", "UNTESTED",
      "Requires multiple inboxes"));
    ("026", ("Enter", "Open focused email", "UNTESTED",
      "Opens email detail view"));
    ("027", ("L/V", "Set label", "UNTESTED",
      "Opens label selection"));
    ("028", ("Cmd+U", "Block sender", "UNTESTED",
      "Blocks sender from current email")) ].

Section json.

(** [json.dumps(report, indent=2)], of the standard library: the text it
    renders for a report whose list reference is resolved. *)
Variable json_dumps : JsonReport -> string.

(** [save_json_report()]; it returns the text it prints. *)
Definition save_json_report : M State string :=
  report ← build_report;
  results ← gets (fun s => heap (world s) !!! report_test_results report);
  let json_output := json_dumps (mk_json (metadata report) (summary report) results) in
  print "JSON REPORT:";;
  print json_output;;
  print "";;
  mret json_output.

(** [run_all_tests()] *)
Definition run_all_tests : M State unit :=
  print (pystr.repeat "=" 80);;
  print "SLASHY KEYBOARD SHORTCUT TEST SUITE";;
  print (pystr.repeat "=" 80);;
  t0 ← gets (fun s => start_time (self s));
  print ("Start Time: " +:+ datetime.str t0);;
  print "Total Tests to Run: 21";;
  print "";;
  record_test "001" "C" "Compose mail" "PASS"
    "Opens full compose window with all fields";;
  record_test "002" "R" "Reply" "PASS"
    "Opens reply composer on right side";;
  record_test "003" "J" "Move down" "PASS"
    "Navigates to next email in list";;
  record_test "004" "K" "Move up" "PASS"
    "Navigates to previous email";;
  record_test "005" "Cmd+Up" "Jump to top" "FAIL"
    "No action triggered";;
  record_test "006" "Cmd+Down" "Jump to bottom" "FAIL"
    "Not tested (likely same as Up)";;
  record_test "007" "E" "Mark as done" "PASS"
    "Moves email to Done folder";;
  record_test "008" "Shift+E" "Mark not done" "UNTESTED"
    "Inverse of E - not tested";;
  record_test "009" "S" "Star email" "PASS"
    "Adds star and updates Starred count";;
  record_test "010" "U" "Toggle read/unread" "PARTIAL"
    "Navigates away instead of toggling";;
  record_test "011" "#" "Move to trash" "FAIL"
    "Special character - no action";;
  record_test "012" "!" "Mark as spam" "FAIL"
    "Special character - no action";;
  record_test "013" "H" "Set reminder" "PASS"
    "Opens reminder dialog with time options";;
  record_test "014" "/" "Search" "FAIL"
    "Types character instead of opening search";;
  record_test "015" "N+L" "Create label" "PASS"
    "Opens label creation dialog";;
  record_test "016" "N+S" "Create snippet" "PASS"
    "Opens snippet creation dialog";;
  record_test "017" "P+A" "AI agent chat" "FAIL"
    "No action triggered";;
  record_test "018" "Cmd+A" "Select all from here" "PASS"
    "Selects all visible emails";;
  record_test "019" "Cmd+Shift+A" "Select all emails" "FAIL"
    "No action triggered";;
  record_test "020" "Cmd+B" "Toggle left sidebar" "PASS"
    "Collapses/expands left panel smoothly";;
  record_test "021" "Cmd+." "Toggle right sidebar" "PASS"
    "Collapses/expands right panel smoothly";;
  record_test "022" "Tab" "Cycle label tabs forward" "PASS"
    "Cycles through labels (Important → Calendar)";;
  record_test "023" "Shift+Tab" "Cycle label tabs back" "PASS"
    "Cycles back through labels (Calendar → Important)";;
  record_test "024" "[" "Cycle to previous inbox" "UNTESTED"
    "Requires multiple inboxes";;
  record_test "025" "]" "Cycle to next inbox" "UNTESTED"
    "Requires multiple inboxes";;
  record_test "026" "Enter" "Open focused email" "UNTESTED"
    "Opens email detail view";;
  record_test "027" "L/V" "Set label" "UNTESTED"
    "Opens label selection";;
  record_test "028" "Cmd+U" "Block sender" "UNTESTED"
    "Blocks sender from current email";;
  print "";;
  print_summary;;
  print_detailed_results;;
  save_json_report;;
  mret tt.

(** [main()]: the value returned is the reference [tester.test_results]. *)
Definition main (w : World) : result loc * State :=
  let tester := __init__ w in
  (run_all_tests;;
   print (pystr.repeat "=" 80);;
   print "TEST EXECUTION COMPLETE";;
   print (pystr.repeat "=" 80);;
   rate ← get_pass_rate;
   print ("Overall Status: " +:+ pystr.format_f 0 rate +:+ "% Pass Rate");;
   print "";;
   rate1 ← get_pass_rate;
   (if pyfloat.ge rate1 (pyfloat.of_int 80) then print "✓ PRODUCTION READY"
    else
      rate2 ← get_pass_rate;
      if pyfloat.ge rate2 (pyfloat.of_int 60) then print "⚠ MOSTLY FUNCTIONAL"
      else print "✗ NEEDS IMPROVEMENT");;
   print "";;
   gets (fun s => test_results (self s))) tester.

End json.

(** A state with one more clock reading taken, and a state with further
    lines printed. *)
Definition tick (s : State) : State :=
  mk_state (self s)
    (mk_world (heap (world s)) (stdout (world s)) (clock (world s)) (S (ticks (world s)))).

Definition printed (lines : list string) (s : State) : State :=
  mk_state (self s)
    (mk_world (heap (world s)) (stdout (world s) ++ lines) (clock (world s)) (ticks (world s))).

(** The results whose test id a category lists, and the results that a
    category counts: those whose status is PASS, FAIL or PARTIAL. *)
Definition in_category (test_ids : list string) (results : list TestResult) : list TestResult :=
  filter (fun r => test_id r ∈ test_ids) results.

Definition counted (results : list TestResult) : list TestResult :=
  filter (fun r => status r ∈ ["PASS"; "FAIL"; "PARTIAL"]) results.

(** The row [print_detailed_results] prints for a result. *)
Definition row (r : TestResult) : string :=
  test_id r +:+ " " +:+ pystr.ljust 15 (shortcut r) +:+ " " +:+
  pystr.ljust 10
    (if String.eqb (status r) "PASS" then "✓ PASS"
     else if String.eqb (status r) "FAIL" then "✗ FAIL"
     else if String.eqb (status r) "PARTIAL" then "⚠ PARTIAL"
     else "- " +:+ status r) +:+ " " +:+ description r.

(** The results whose row [print_detailed_results] can print, and the calls
    that record such a result: the timestamp is made of digits and the
    notes are not printed. *)
Definition result_encodable (r : TestResult) : bool :=
  pystr.encodable (test_id r) && pystr.encodable (shortcut r) &&
  pystr.encodable (status r) && pystr.encodable (description r).

Definition call_encodable (c : Call) : bool :=
  let '(test_id, (shortcut, description, status, notes)) := c in
  pystr.encodable test_id && pystr.encodable shortcut &&
  pystr.encodable status && pystr.encodable description.

(** The lines, none or one, that the loop over [categories.items()] prints
    for the category [entry] when the recorded results are [results]. *)
Definition category_line (entry : string * list string) (results : list TestResult)
    : list string :=
  let '(category, test_ids) := entry in
  let rs := in_category test_ids results in
  let passed := Z.of_nat (length (filter (fun r => status r = "PASS") rs)) in
  let total := Z.of_nat (length (counted rs)) in
  if 0 <? total then
    match pyfloat.int_true_div passed total with
    | Ok q =>
        [ (if passed =? total then "✓" else "✗") +:+ " " +:+
          pystr.ljust 25 category +:+ ": " +:+
          pystr.of_int passed +:+ "/" +:+ pystr.of_int total +:+ " passed (" +:+
          pystr.format_f 0 (pyfloat.mul q (pyfloat.of_int 100)) +:+ "%)" ]
    | Raise _ => []
    end
  else [].

(** The dict [record_test] builds for the call [c] when the clock reads
    [now], and the dicts of a run of calls whose first clock reading is
    reading number [k]. *)
Definition outcome (now : datetime) (c : Call) : TestResult :=
  let '(test_id, (shortcut, description, status, notes)) := c in
  mk_result test_id shortcut description status (datetime.isoformat now) notes.

Fixpoint outcomes (clk : nat -> datetime) (k : nat) (calls : list Call) : list TestResult :=
  match calls with
  | [] => []
  | c :: rest => outcome (clk k) c :: outcomes clk (S k) rest
  end.

End slashy_shortcut_tests.

(** * Facts

    ** Binary64 arithmetic stays finite on the values the recorder feeds it *)

Module pyfloat_facts.
Import pyfloat.

Lemma digits2_pos_size p : digits2_pos p = Pos.size p.
Proof. induction p; simpl; congruence. Qed.

Lemma Zdigits2_nonneg m : 0 <= Zdigits2 m.
Proof. destruct m; simpl; lia. Qed.

Lemma Zdigits2_pos_log2 p : Zdigits2 (Zpos p) = Z.log2 (Zpos p) + 1.
Proof.
  simpl. rewrite digits2_pos_size. destruct p; simpl; lia.
Qed.

Lemma Zdigits2_le m k : 0 <= m < 2 ^ k -> 0 <= k -> Zdigits2 m <= k.
Proof.
  intros [H0 Hlt] Hk. destruct m as [|p|p]; [simpl; lia| |lia].
  rewrite Zdigits2_pos_log2.
  enough (Z.log2 (Z.pos p) < k) by lia.
  apply Z.log2_lt_pow2; lia.
Qed.

Lemma Zdigits2_gt m : 0 <= m -> m < 2 ^ Zdigits2 m.
Proof.
  intros H0. destruct m as [|p|p]; [simpl; lia| |lia].
  rewrite Zdigits2_pos_log2.
  apply (Z.log2_spec (Z.pos p)). lia.
Qed.

Lemma shr_1_digits s : Zdigits2 (shr_m (shr_1 s)) = Z.max 0 (Zdigits2 (shr_m s) - 1).
Proof.
  destruct s as [m r t]. destruct m as [|p|p]; simpl; [reflexivity| |];
    destruct p; simpl; lia.
Qed.

Lemma shr_1_nonneg s : 0 <= shr_m s -> 0 <= shr_m (shr_1 s).
Proof.
  destruct s as [m r t]. destruct m as [|p|p]; simpl; [lia| |lia].
  destruct p; simpl; lia.
Qed.

Lemma iter_shr_1_digits p : forall s,
  Zdigits2 (shr_m (SpecFloat.iter_pos shr_1 p s)) = Z.max 0 (Zdigits2 (shr_m s) - Zpos p).
Proof.
  induction p as [p IH|p IH|]; intros s; simpl.
  - rewrite !IH, shr_1_digits. lia.
  - rewrite !IH. lia.
  - apply shr_1_digits.
Qed.

Lemma iter_shr_1_nonneg p : forall s,
  0 <= shr_m s -> 0 <= shr_m (SpecFloat.iter_pos shr_1 p s).
Proof.
  induction p as [p IH|p IH|]; intros s H; simpl.
  - apply IH, IH, shr_1_nonneg, H.
  - apply IH, IH, H.
  - apply shr_1_nonneg, H.
Qed.

Lemma shr_m_of_loc m l : shr_m (shr_record_of_loc m l) = m.
Proof. destruct l as [|[]]; reflexivity. Qed.

Lemma shr_fexp_bounds m e l :
  0 <= m ->
  0 <= shr_m (shr_fexp prec emax m e l).1 /\
  Zdigits2 (shr_m (shr_fexp prec emax m e l).1) <= 53 /\
  (shr_fexp prec emax m e l).2 = Z.max e (fexp prec emax (Zdigits2 m + e)).
Proof.
  intros Hm. unfold shr_fexp, shr.
  pose proof (Zdigits2_nonneg m) as Hd.
  destruct (fexp prec emax (Zdigits2 m + e) - e) as [|n|n] eqn:Hn; simpl;
    rewrite ?iter_shr_1_digits, ?shr_m_of_loc;
    unfold fexp, emin, prec, emax in *.
  - repeat split; lia.
  - repeat split; [apply iter_shr_1_nonneg; rewrite shr_m_of_loc; lia|lia|lia].
  - repeat split; lia.
Qed.

Lemma round_nearest_even_bounds m l :
  0 <= m -> Zdigits2 m <= 53 ->
  0 <= round_nearest_even m l /\ Zdigits2 (round_nearest_even m l) <= 54.
Proof.
  intros Hm Hd.
  assert (m < 2 ^ 53).
  { eapply Z.lt_le_trans; [apply Zdigits2_gt, Hm|].
    apply Z.pow_le_mono_r; [lia|exact Hd]. }
  assert (Hcase : round_nearest_even m l = m \/ round_nearest_even m l = m + 1).
  { destruct l as [|[]]; simpl; auto. destruct (Z.even m); auto. }
  split; [lia|]. apply Zdigits2_le; [|lia].
  change (2 ^ 54) with (2 * 2 ^ 53). lia.
Qed.

Lemma binary_round_aux_finite sx mx ex lx :
  0 <= mx -> ex <= 970 -> Zdigits2 mx + ex <= 1023 ->
  finite_upto (Z.max (Z.max ex (Zdigits2 mx + ex - 53)) (-1074) + 1)
    (binary_round_aux prec emax sx mx ex lx).
Proof.
  intros Hm Hex Hd. unfold binary_round_aux.
  destruct (shr_fexp_bounds mx ex lx Hm) as (H1 & H2 & H3).
  destruct (shr_fexp prec emax mx ex lx) as [mrs' e'] eqn:E1. simpl in H1, H2, H3.
  destruct (round_nearest_even_bounds (shr_m mrs') (loc_of_shr_record mrs') H1 H2) as [H4 H5].
  set (m2 := round_nearest_even _ _) in *.
  destruct (shr_fexp_bounds m2 e' loc_Exact H4) as (H6 & H7 & H8).
  destruct (shr_fexp prec emax m2 e' loc_Exact) as [mrs'' e''] eqn:E2. simpl in H6, H7, H8.
  assert (He'' : e'' <= Z.max (Z.max ex (Zdigits2 mx + ex - 53)) (-1074) + 1).
  { subst e'' e'. unfold fexp, emin, prec, emax. lia. }
  destruct (shr_m mrs'') as [|m|m] eqn:E3; simpl; [exact I| |lia].
  replace (e'' <=? emax - prec) with true.
  - simpl. simpl in H7. split; [exact H7|exact He''].
  - symmetry. apply Z.leb_le. unfold emax, prec. lia.
Qed.

Lemma finite_upto_mono E E' x : finite_upto E x -> E <= E' -> finite_upto E' x.
Proof. destruct x; simpl; intuition lia. Qed.

Lemma SFdiv_int_finite sa sb (a b : positive) k :
  0 <= k <= 960 -> Zpos a <= Zpos b * 2 ^ k ->
  finite_upto (k + 2) (SFdiv prec emax (S754_finite sa a 0) (S754_finite sb b 0)).
Proof.
  intros Hk Hab. unfold SFdiv, SFdiv_core_binary.
  set (e' := Z.min _ (0 - 0)).
  assert (He' : e' <= 0) by (subst e'; lia).
  set (m' := match 0 - 0 - e' with Z0 => Zpos a | Zpos _ => Z.shiftl (Zpos a) (0 - 0 - e') | Zneg _ => 0 end).
  assert (Hm' : m' = Zpos a * 2 ^ (- e')).
  { subst m'. replace (0 - 0 - e') with (- e') by lia.
    destruct (- e') as [|s|s] eqn:Hs; [simpl; lia| |lia].
    apply Z.shiftl_mul_pow2. lia. }
  pose proof (Z.pow_pos_nonneg 2 (- e') ltac:(lia) ltac:(lia)) as Hpow.
  pose proof (Z.pow_pos_nonneg 2 k ltac:(lia) ltac:(lia)) as Hpowk.
  assert (Hq : m' / Zpos b = (Z.div_eucl m' (Zpos b)).1).
  { unfold Z.div. destruct (Z.div_eucl m' (Zpos b)); reflexivity. }
  destruct (Z.div_eucl m' (Zpos b)) as [q r]. simpl in Hq. subst q.
  assert (H0 : 0 <= m' / Zpos b) by (apply Z.div_pos; nia).
  assert (Hub : m' / Zpos b <= 2 ^ (k + - e')).
  { apply Z.div_le_upper_bound; [lia|].
    rewrite Z.pow_add_r by lia. rewrite Hm'. nia. }
  assert (Hdig : Zdigits2 (m' / Zpos b) <= k + - e' + 1).
  { apply Zdigits2_le; [|lia]. rewrite (Z.pow_add_r 2 (k + - e') 1) by lia.
    change (2 ^ 1) with 2.
    pose proof (Z.pow_pos_nonneg 2 (k + - e') ltac:(lia) ltac:(lia)). lia. }
  eapply finite_upto_mono; [apply binary_round_aux_finite; lia|lia].
Qed.

Lemma int_true_div_finite p t :
  0 <= p <= t -> 0 < t ->
  exists q, int_true_div p t = Ok q /\ finite_upto 2 q.
Proof.
  intros Hp Ht. unfold int_true_div.
  destruct (Z.eqb_spec t 0) as [->|_]; [lia|].
  destruct t as [|b|b]; try lia. destruct p as [|a|a]; try lia.
  - simpl. eexists; split; [reflexivity|exact I].
  - pose proof (SFdiv_int_finite false false a b 0 ltac:(lia) ltac:(simpl; lia)) as H.
    simpl int_operand.
    destruct (SFdiv prec emax _ _) eqn:E; simpl in H; try contradiction;
      eexists; (split; [reflexivity|]); simpl; exact H.
Qed.

Lemma mul_100_finite E q :
  finite_upto E q -> E <= 900 ->
  finite_upto (Z.max E 0 + 8) (mul q (of_int 100)).
Proof.
  intros Hq HE. unfold mul.
  change (of_int 100) with (S754_finite false 7036874417766400 (-46)).
  destruct q as [s| | |s m e]; simpl in Hq; try contradiction; [exact I|].
  destruct Hq as [Hm He]. unfold SFmul.
  assert (Hd : Zdigits2 (Zpos (m * 7036874417766400)) <= 106).
  { apply Zdigits2_le; [|lia].
    pose proof (Zdigits2_gt (Zpos m) ltac:(lia)) as Hlt. simpl Zdigits2 in Hlt.
    assert (2 ^ Zpos (digits2_pos m) <= 2 ^ 53) by (apply Z.pow_le_mono_r; lia).
    change (2 ^ 106) with (2 ^ 53 * 2 ^ 53).
    assert (7036874417766400 < 2 ^ 53) by reflexivity.
    rewrite Pos2Z.inj_mul. nia. }
  eapply finite_upto_mono; [apply binary_round_aux_finite; lia|lia].
Qed.

Lemma round_half_even_scaled_bounds m e scale :
  0 < scale ->
  0 <= round_half_even_scaled m e scale <= Zpos m * 2 ^ Z.max e 0 * scale + 1.
Proof.
  intros Hs. unfold round_half_even_scaled. destruct e as [|p|p].
  - rewrite Z.max_id. change (2 ^ 0) with 1. nia.
  - rewrite Z.max_l by lia.
    pose proof (Z.pow_pos_nonneg 2 (Zpos p) ltac:(lia) ltac:(lia)). nia.
  - rewrite Z.max_r by lia. change (2 ^ 0) with 1.
    pose proof (Z.pow_pos_nonneg 2 (Zpos p) ltac:(lia) ltac:(lia)) as Hden.
    set (num := Zpos m * scale). set (den := 2 ^ Zpos p) in *.
    assert (0 <= num) by (subst num; nia).
    assert (0 <= num / den) by (apply Z.div_pos; lia).
    assert (num / den <= num) by (apply Z.div_le_upper_bound; nia).
    replace (Zpos m * 1 * scale) with num by (subst num; lia).
    destruct (2 * (num mod den) ?= den); [destruct (Z.even (num / den))| |]; lia.
Qed.

Lemma round_2_finite E x :
  finite_upto E x -> 0 <= E <= 900 ->
  exists r, round x 2 = Ok r /\ finite_upto (E + 55) r.
Proof.
  intros Hx HE. unfold round.
  destruct x as [s| | |s m e]; simpl in Hx; try contradiction.
  - eexists; split; [reflexivity|exact I].
  - destruct Hx as [Hm He].
    change (323 <? Z.of_nat 2) with false. cbv iota.
    change (10 ^ Z.of_nat 2) with 100. cbv zeta.
    pose proof (round_half_even_scaled_bounds m e 100 ltac:(lia)) as Hn.
    destruct (round_half_even_scaled m e 100) as [|n|n];
      [eexists; split; [reflexivity|exact I]| |lia].
    change (int_operand 100) with (S754_finite false 100 0).
    assert (Hk : Zpos n <= 100 * 2 ^ (E + 53)).
    { pose proof (Zdigits2_gt (Zpos m) ltac:(lia)) as Hlt. simpl Zdigits2 in Hlt.
      assert (2 ^ Zpos (digits2_pos m) <= 2 ^ 53) by (apply Z.pow_le_mono_r; lia).
      assert (2 ^ Z.max e 0 <= 2 ^ E) by (apply Z.pow_le_mono_r; lia).
      pose proof (Z.pow_pos_nonneg 2 (Z.max e 0) ltac:(lia) ltac:(lia)).
      rewrite Z.pow_add_r by lia. nia. }
    pose proof (SFdiv_int_finite s false n 100 (E + 53) ltac:(lia) Hk) as H.
    destruct (SFdiv prec emax _ _) eqn:Ed; simpl in H; try contradiction;
      eexists; (split; [reflexivity|]); simpl; [exact I|].
    split; [tauto|lia].
Qed.

(** Comparison is antisymmetric, NaNs included. *)
Lemma SFcompare_antisym x y :
  SFcompare y x = option_map CompOpp (SFcompare x y).
Proof.
  destruct x as [sx|sx| |sx mx ex], y as [sy|sy| |sy my ey]; simpl;
    try reflexivity; try (destruct sx; reflexivity); try (destruct sy; reflexivity);
    try (destruct sx, sy; reflexivity).
  pose proof (Pos.compare_cont_antisym mx my Eq) as Hm. simpl in Hm.
  destruct sx, sy; simpl; try reflexivity;
    rewrite (Z.compare_antisym ex ey); destruct (ex ?= ey); simpl; try reflexivity;
    rewrite <- Hm; destruct (Pos.compare_cont Eq mx my); reflexivity.
Qed.

Lemma lt_not_ge x y : lt x y = true -> ge x y = false.
Proof.
  unfold lt, ge, SFltb, SFleb. rewrite (SFcompare_antisym x y).
  destruct (SFcompare x y) as [[]|]; simpl; congruence.
Qed.

End pyfloat_facts.

(** ** Text that can be encoded stays so when it is joined and padded *)

Module pystr_facts.
Import pystr.

Lemma encodable_app_bounded : forall (n : nat) (a b : string),
  (String.length a <= n)%nat ->
  encodable a = true -> encodable b = true -> encodable (a +:+ b) = true.
Proof.
  induction n as [|n IH]; intros a b Hn Ha Hb.
  - destruct a; [exact Hb|cbn [String.length] in Hn; lia].
  - destruct a as [|c1 a]; [exact Hb|].
    cbn [String.length] in Hn.
    change (String c1 a +:+ b) with (String c1 (a +:+ b)).
    cbn [encodable] in Ha |- *.
    destruct (in_range 0 127 c1); [apply IH; [lia|exact Ha|exact Hb]|].
    destruct a as [|c2 a]; [discriminate|]. cbn [String.length] in Hn.
    change (String c2 a +:+ b) with (String c2 (a +:+ b)). cbn iota.
    destruct (in_range 194 223 c1).
    { apply andb_true_iff in Ha as [H1 H2]. rewrite H1. apply IH; [lia|exact H2|exact Hb]. }
    destruct a as [|c3 a]; [discriminate|]. cbn [String.length] in Hn.
    change (String c3 a +:+ b) with (String c3 (a +:+ b)). cbn iota.
    destruct (in_range 224 239 c1).
    { apply andb_true_iff in Ha as [H1 H2]. rewrite H1. apply IH; [lia|exact H2|exact Hb]. }
    destruct a as [|c4 a]; [discriminate|]. cbn [String.length] in Hn.
    change (String c4 a +:+ b) with (String c4 (a +:+ b)). cbn iota.
    apply andb_true_iff in Ha as [H1 H2]. rewrite H1. apply IH; [lia|exact H2|exact Hb].
Qed.

Lemma encodable_app a b :
  encodable a = true -> encodable b = true -> encodable (a +:+ b) = true.
Proof. apply (encodable_app_bounded (String.length a)). lia. Qed.

Lemma encodable_spaces n : encodable (repeat " " n) = true.
Proof.
  induction n as [|n IH]; [reflexivity|].
  cbn [repeat]. apply encodable_app; [reflexivity|exact IH].
Qed.

Lemma encodable_ljust w s : encodable s = true -> encodable (ljust w s) = true.
Proof. intros H. apply encodable_app; [exact H|apply encodable_spaces]. Qed.

(** From the year 1000 to the year 9999 the year has four digits, so that
    padding it to four changes nothing. *)
Lemma four_digit_year y :
  1000 <= y <= 9999 -> zfill 4 (of_int y) = of_int y.
Proof.
  intros Hy.
  assert (Hall : forallb (fun k => let z := 1000 + Z.of_nat k in
                            String.eqb (zfill 4 (of_int z)) (of_int z))
                   (seq 0 (Z.to_nat 9000)) = true) by (vm_compute; reflexivity).
  rewrite forallb_forall in Hall.
  specialize (Hall (Z.to_nat (y - 1000))). cbv zeta in Hall.
  replace (1000 + Z.of_nat (Z.to_nat (y - 1000))) with y in Hall by lia.
  apply String.eqb_eq, Hall, in_seq. lia.
Qed.

End pystr_facts.

Module slashy_test_facts.
Import slashy_test.

Lemma record_test_run sc d st n s :
  record_test sc d st n s =
    (Ok tt,
     mk_state (add_total (count_status st (self s)))
       (mk_world
          (<[test_results (self s) :=
               recorded s ++ [outcome (clock (world s) (ticks (world s))) (sc, d, st, n)]]>
             (heap (world s)))
          (stdout (world s) ++ [result_line (sc, d, st, n)])
          (files (world s)) (writable (world s)) (clock (world s)) (S (ticks (world s))))).
Proof.
  unfold record_test, count_status, recorded, outcome, result_line.
  unfold mbind, M_bind, datetime_now, gets, list_append, print, modify, mret, M_ret.
  destruct s as [t w]; cbn [self world with_world with_self heap stdout files clock ticks].
  destruct (String.eqb st "PASS"); [reflexivity|].
  destruct (String.eqb st "FAIL"); [reflexivity|].
  destruct (String.eqb st "PARTIAL"); [reflexivity|].
  destruct (String.eqb st "ERROR"); reflexivity.
Qed.

Lemma count_status_counters st t :
  passed_tests (count_status st t) = passed_tests t + (if decide (st = "PASS") then 1 else 0) /\
  failed_tests (count_status st t) = failed_tests t + (if decide (st = "FAIL") then 1 else 0) /\
  partial_tests (count_status st t) = partial_tests t + (if decide (st = "PARTIAL") then 1 else 0) /\
  error_tests (count_status st t) = error_tests t + (if decide (st = "ERROR") then 1 else 0) /\
  total_tests (count_status st t) = total_tests t /\
  test_results (count_status st t) = test_results t /\
  start_time (count_status st t) = start_time t.
Proof.
  unfold count_status.
  destruct (String.eqb_spec st "PASS") as [->|H1]; [simpl; repeat split; lia|].
  destruct (String.eqb_spec st "FAIL") as [->|H2]; [simpl; repeat split; lia|].
  destruct (String.eqb_spec st "PARTIAL") as [->|H3]; [simpl; repeat split; lia|].
  destruct (String.eqb_spec st "ERROR") as [->|H4]; [simpl; repeat split; lia|].
  repeat case_decide; try congruence. repeat split; lia.
Qed.

Lemma tally_cons name c calls :
  tally name (c :: calls) = (if decide (call_status c = name) then 1 else 0) + tally name calls.
Proof.
  unfold tally. rewrite filter_cons. case_decide; simpl length; lia.
Qed.

Lemma tally_nonneg name calls : 0 <= tally name calls.
Proof. unfold tally. lia. Qed.

Lemma record_all_cons c calls s :
  record_all (c :: calls) s =
  record_all calls (record_test c.1.1.1 c.1.1.2 c.1.2 c.2 s).2.
Proof.
  destruct c as [[[sc d] st] n]. cbn [record_all fst snd].
  unfold mbind at 1, M_bind at 1. rewrite record_test_run. reflexivity.
Qed.

(** What a run of [record_test] calls does to every part of the state. *)
Lemma record_all_run calls : forall s,
  let s' := (record_all calls s).2 in
  (record_all calls s).1 = Ok tt /\
  total_tests (self s') = total_tests (self s) + Z.of_nat (length calls) /\
  passed_tests (self s') = passed_tests (self s) + tally "PASS" calls /\
  failed_tests (self s') = failed_tests (self s) + tally "FAIL" calls /\
  partial_tests (self s') = partial_tests (self s) + tally "PARTIAL" calls /\
  error_tests (self s') = error_tests (self s) + tally "ERROR" calls /\
  test_results (self s') = test_results (self s) /\
  start_time (self s') = start_time (self s) /\
  recorded s' = recorded s ++ outcomes (clock (world s)) (ticks (world s)) calls /\
  stdout (world s') = stdout (world s) ++ map result_line calls /\
  files (world s') = files (world s) /\
  clock (world s') = clock (world s) /\
  ticks (world s') = (ticks (world s) + length calls)%nat.
Proof.
  induction calls as [|c calls IH]; intros s; cbv zeta.
  - cbn [record_all outcomes map length]. unfold mret, M_ret, tally. simpl.
    rewrite !app_nil_r, Nat.add_0_r. repeat split; lia.
  - rewrite record_all_cons. destruct c as [[[sc d] st] n]. cbn [fst snd].
    rewrite record_test_run. cbn [snd].
    set (s1 := mk_state _ _).
    specialize (IH s1). cbv zeta in IH.
    destruct IH as (I1 & I2 & I3 & I4 & I5 & I6 & I7 & I8 & I9 & I10 & I11 & I12 & I13).
    rewrite I1, I2, I3, I4, I5, I6, I7, I8, I9, I10, I11, I12, I13.
    destruct (count_status_counters st (self s)) as (C1 & C2 & C3 & C4 & C5 & C6 & C7).
    rewrite !tally_cons. unfold call_status. cbn [fst snd].
    subst s1. cbn [self world total_tests passed_tests failed_tests partial_tests
      error_tests test_results start_time add_total stdout files clock ticks].
    rewrite C1, C2, C3, C4, C5, C6, C7.
    assert (Hrec : recorded
      {| self := add_total (count_status st (self s));
         world := {| heap := <[test_results (self s) :=
                       recorded s ++ [outcome (clock (world s) (ticks (world s))) (sc, d, st, n)]]>
                       (heap (world s));
                     stdout := stdout (world s) ++ [result_line (sc, d, st, n)];
                     files := files (world s);
                     writable := writable (world s);
                     clock := clock (world s);
                     ticks := S (ticks (world s)) |} |}
      = recorded s ++ [outcome (clock (world s) (ticks (world s))) (sc, d, st, n)]).
    { unfold recorded at 1. cbn [self world heap test_results add_total].
      rewrite C6. apply lookup_total_insert_eq. }
    rewrite Hrec. cbn [outcomes map length].
    rewrite <- !app_assoc. cbn [app].
    repeat split; try lia. 
Qed.

Lemma outcomes_app clk k calls more :
  outcomes clk k (calls ++ more) =
  outcomes clk k calls ++ outcomes clk (k + length calls) more.
Proof.
  revert k. induction calls as [|c calls IH]; intros k; cbn [outcomes app length].
  - rewrite Nat.add_0_r. reflexivity.
  - rewrite IH. replace (S k + length calls)%nat with (k + S (length calls))%nat by lia.
    reflexivity.
Qed.

Lemma outcomes_length clk k calls : length (outcomes clk k calls) = length calls.
Proof.
  revert k. induction calls as [|c calls IH]; intros k; cbn [outcomes length];
    [reflexivity|]. rewrite IH. reflexivity.
Qed.

Lemma init_recorded w : recorded (__init__ w) = [].
Proof. unfold recorded, __init__. cbn. apply lookup_total_insert_eq. Qed.

(** The fresh recorder after a run of calls, attribute by attribute. *)
Lemma record_all_writable calls : forall s,
  writable (world (record_all calls s).2) = writable (world s).
Proof.
  induction calls as [|c calls IH]; intros s; [reflexivity|].
  rewrite record_all_cons, IH, record_test_run. reflexivity.
Qed.

Lemma after_run w calls :
  let t := self (after w calls) in
  total_tests t = Z.of_nat (length calls) /\
  passed_tests t = tally "PASS" calls /\
  failed_tests t = tally "FAIL" calls /\
  partial_tests t = tally "PARTIAL" calls /\
  error_tests t = tally "ERROR" calls /\
  recorded (after w calls) = outcomes (clock w) (S (ticks w)) calls.
Proof.
  unfold after.
  destruct (record_all_run calls (__init__ w))
    as (_ & I2 & I3 & I4 & I5 & I6 & _ & _ & I9 & _).
  cbv zeta. rewrite I2, I3, I4, I5, I6, I9, init_recorded. cbn. repeat split; lia.
Qed.

Lemma after_app w calls more :
  after w (calls ++ more) = (record_all more (after w calls)).2.
Proof.
  unfold after. generalize (__init__ w).
  induction calls as [|c calls IH]; intros s; [reflexivity|].
  cbn [app]. rewrite !record_all_cons. apply IH.
Qed.

Lemma recognized_iff st :
  recognized st <-> st = "PASS" \/ st = "FAIL" \/ st = "PARTIAL" \/ st = "ERROR".
Proof.
  unfold recognized. rewrite !elem_of_cons, elem_of_nil. tauto.
Qed.

Lemma tally_sum calls :
  let sum := tally "PASS" calls + tally "FAIL" calls + tally "PARTIAL" calls + tally "ERROR" calls in
  sum <= Z.of_nat (length calls) /\
  (sum = Z.of_nat (length calls) <-> Forall (fun c => recognized (call_status c)) calls).
Proof.
  induction calls as [|c calls [IHle IHeq]]; cbv zeta.
  - unfold tally. simpl. split; [lia|]. split; [constructor|reflexivity].
  - rewrite !tally_cons, Forall_cons, recognized_iff, <- IHeq.
    cbn [length]. cbv zeta in IHle.
    repeat case_decide; try congruence; intuition (try lia; try congruence).
Qed.

Lemma tally_perm name calls1 calls2 :
  map call_status calls1 ≡ₚ map call_status calls2 ->
  tally name calls1 = tally name calls2.
Proof.
  intros Hp.
  assert (Hmap : forall calls,
    tally name calls = Z.of_nat (length (filter (fun st => st = name) (map call_status calls)))).
  { induction calls as [|c calls IH]; [reflexivity|].
    rewrite tally_cons, IH. cbn [map]. rewrite filter_cons.
    case_decide; cbn [length]; lia. }
  rewrite !Hmap, Hp. reflexivity.
Qed.

(** ** The recorder *)

(** C2. From a fresh recorder, after any run of [record_test] calls the
    total counter equals the length of the recorded sequence; the sequence
    holds one dict per call in call order; and running more calls leaves
    what was recorded as an unchanged prefix and appends one dict per further
    call. *)
Theorem recorded_sequence_append_only (w : World) (calls more : list Call) :
  total_tests (self (after w calls)) = Z.of_nat (length (recorded (after w calls))) /\
  recorded (after w calls) = outcomes (clock w) (S (ticks w)) calls /\
  recorded (after w (calls ++ more)) =
    recorded (after w calls) ++ outcomes (clock w) (S (ticks w) + length calls) more.
Proof.
  destruct (after_run w calls) as (Ht & _ & _ & _ & _ & Hr).
  destruct (after_run w (calls ++ more)) as (_ & _ & _ & _ & _ & Hr').
  rewrite Hr', Hr, Ht, outcomes_length, outcomes_app. auto.
Qed.

(** C3. A call of [record_test] with any status string returns without
    raising; it appends to the sequence a dict with the call's shortcut,
    description, status and notes and the current clock reading as timestamp,
    and adds one to the total; it adds one to exactly the counter named by
    the status among PASS, FAIL, PARTIAL and ERROR, and to no counter for any
    other status. *)
Theorem record_test_effect (shortcut description status notes : string) (s : State) :
  let s' := (record_test shortcut description status notes s).2 in
  let t := self s in
  let t' := self s' in
  (record_test shortcut description status notes s).1 = Ok tt /\
  recorded s' =
    recorded s ++
    [mk_result shortcut description status
       (datetime.isoformat (clock (world s) (ticks (world s)))) notes] /\
  total_tests t' = total_tests t + 1 /\
  (status = "PASS" ->
     passed_tests t' = passed_tests t + 1 /\ failed_tests t' = failed_tests t /\
     partial_tests t' = partial_tests t /\ error_tests t' = error_tests t) /\
  (status = "FAIL" ->
     passed_tests t' = passed_tests t /\ failed_tests t' = failed_tests t + 1 /\
     partial_tests t' = partial_tests t /\ error_tests t' = error_tests t) /\
  (status = "PARTIAL" ->
     passed_tests t' = passed_tests t /\ failed_tests t' = failed_tests t /\
     partial_tests t' = partial_tests t + 1 /\ error_tests t' = error_tests t) /\
  (status = "ERROR" ->
     passed_tests t' = passed_tests t /\ failed_tests t' = failed_tests t /\
     partial_tests t' = partial_tests t /\ error_tests t' = error_tests t + 1) /\
  (~ recognized status ->
     passed_tests t' = passed_tests t /\ failed_tests t' = failed_tests t /\
     partial_tests t' = partial_tests t /\ error_tests t' = error_tests t).
Proof.
  cbv zeta. rewrite record_test_run. cbn [fst snd self].
  destruct (count_status_counters status (self s)) as (C1 & C2 & C3 & C4 & C5 & C6 & C7).
  cbn [add_total passed_tests failed_tests partial_tests error_tests total_tests].
  rewrite C1, C2, C3, C4, C5, recognized_iff.
  split; [reflexivity|]. split.
  { unfold recorded at 1. cbn [self world heap test_results add_total].
    rewrite C6. apply lookup_total_insert_eq. }
  split; [reflexivity|].
  repeat case_decide; subst; repeat split; intros; try congruence; try lia; tauto.
Qed.

(** C4. From a fresh recorder, after any run of calls the four status
    counters sum to at most the total, with equality exactly when every call
    used one of PASS, FAIL, PARTIAL, ERROR. *)
Theorem counters_sum_le_total (w : World) (calls : list Call) :
  let t := self (after w calls) in
  passed_tests t + failed_tests t + partial_tests t + error_tests t <= total_tests t /\
  (passed_tests t + failed_tests t + partial_tests t + error_tests t = total_tests t <->
   Forall (fun c => recognized (call_status c)) calls).
Proof.
  destruct (after_run w calls) as (Ht & Hp & Hf & Hpa & He & _).
  cbv zeta. rewrite Ht, Hp, Hf, Hpa, He. apply tally_sum.
Qed.

(** C9. One [record_test] call adds exactly one to the total and adds one to
    at most one of the four status counters, leaving the others as they
    were; so over any run from a fresh recorder the five counters are never
    negative and never decrease. *)
Theorem counters_step_and_monotone :
  (forall (shortcut description status notes : string) (s : State),
     let t := self s in
     let t' := self (record_test shortcut description status notes s).2 in
     total_tests t' = total_tests t + 1 /\
     ((passed_tests t' = passed_tests t + 1 /\ failed_tests t' = failed_tests t /\
       partial_tests t' = partial_tests t /\ error_tests t' = error_tests t) \/
      (passed_tests t' = passed_tests t /\ failed_tests t' = failed_tests t + 1 /\
       partial_tests t' = partial_tests t /\ error_tests t' = error_tests t) \/
      (passed_tests t' = passed_tests t /\ failed_tests t' = failed_tests t /\
       partial_tests t' = partial_tests t + 1 /\ error_tests t' = error_tests t) \/
      (passed_tests t' = passed_tests t /\ failed_tests t' = failed_tests t /\
       partial_tests t' = partial_tests t /\ error_tests t' = error_tests t + 1) \/
      (passed_tests t' = passed_tests t /\ failed_tests t' = failed_tests t /\
       partial_tests t' = partial_tests t /\ error_tests t' = error_tests t))) /\
  (forall (w : World) (calls more : list Call),
     let t := self (after w calls) in
     let t' := self (after w (calls ++ more)) in
     (0 <= total_tests t /\ 0 <= passed_tests t /\ 0 <= failed_tests t /\
      0 <= partial_tests t /\ 0 <= error_tests t) /\
     (total_tests t <= total_tests t' /\ passed_tests t <= passed_tests t' /\
      failed_tests t <= failed_tests t' /\ partial_tests t <= partial_tests t' /\
      error_tests t <= error_tests t')).
Proof.
  split.
  - intros sc d st n s. cbv zeta. rewrite record_test_run. cbn [snd self].
    destruct (count_status_counters st (self s)) as (C1 & C2 & C3 & C4 & C5 & _).
    cbn [add_total passed_tests failed_tests partial_tests error_tests total_tests].
    rewrite C1, C2, C3, C4, C5. split; [reflexivity|].
    repeat case_decide; subst; try congruence; lia.
  - intros w calls more. cbv zeta.
    destruct (after_run w calls) as (Ht & Hp & Hf & Hpa & He & _).
    rewrite after_app.
    destruct (record_all_run more (after w calls))
      as (_ & I2 & I3 & I4 & I5 & I6 & _).
    cbv zeta in I2, I3, I4, I5, I6. rewrite I2, I3, I4, I5, I6, Ht, Hp, Hf, Hpa, He.
    pose proof (tally_nonneg "PASS" calls). pose proof (tally_nonneg "FAIL" calls).
    pose proof (tally_nonneg "PARTIAL" calls). pose proof (tally_nonneg "ERROR" calls).
    pose proof (tally_nonneg "PASS" more). pose proof (tally_nonneg "FAIL" more).
    pose proof (tally_nonneg "PARTIAL" more). pose proof (tally_nonneg "ERROR" more).
    lia.
Qed.

(** ** The pass rate *)

Lemma get_pass_rate_run s :
  get_pass_rate s =
  (if total_tests (self s) =? 0 then Ok (S754_zero false)
   else
     match pyfloat.int_true_div (passed_tests (self s)) (total_tests (self s)) with
     | Ok q => Ok (pyfloat.mul q (pyfloat.of_int 100))
     | Raise e => Raise e
     end,
   s).
Proof.
  unfold get_pass_rate, mbind, M_bind, gets, lift_result, mret, M_ret.
  destruct (total_tests (self s) =? 0); [reflexivity|].
  destruct (pyfloat.int_true_div _ _); reflexivity.
Qed.

Lemma get_pass_rate_pure s : get_pass_rate s = ((get_pass_rate s).1, s).
Proof. rewrite get_pass_rate_run. reflexivity. Qed.

Lemma get_pass_rate_self s s' :
  self s = self s' -> (get_pass_rate s).1 = (get_pass_rate s').1.
Proof. intros E. rewrite !get_pass_rate_run, E. reflexivity. Qed.

(** With counts in range the pass rate is computed without an exception,
    and is a finite float. *)
Lemma get_pass_rate_finite s :
  0 <= passed_tests (self s) <= total_tests (self s) ->
  exists rate, (get_pass_rate s).1 = Ok rate /\ pyfloat.finite_upto 10 rate.
Proof.
  intros H. rewrite get_pass_rate_run. cbn [fst].
  destruct (Z.eqb_spec (total_tests (self s)) 0) as [E|E].
  - eexists; split; [reflexivity|exact I].
  - destruct (pyfloat_facts.int_true_div_finite _ _ H ltac:(lia)) as (q & -> & Hq).
    eexists; split; [reflexivity|].
    apply (pyfloat_facts.mul_100_finite 2 q Hq). lia.
Qed.

Lemma after_counts_in_range w calls :
  0 <= passed_tests (self (after w calls)) <= total_tests (self (after w calls)).
Proof.
  destruct (after_run w calls) as (Ht & Hp & _).
  destruct (tally_sum calls) as [Hle _]. cbv zeta in Hle.
  pose proof (tally_nonneg "PASS" calls). pose proof (tally_nonneg "FAIL" calls).
  pose proof (tally_nonneg "PARTIAL" calls). pose proof (tally_nonneg "ERROR" calls).
  rewrite Ht, Hp. lia.
Qed.

(** C1. [get_pass_rate] leaves the whole state as it was; it returns [0.0]
    when the total is zero and otherwise the value of
    [passed_tests / total_tests * 100]; two states with the same two counts
    give the same result; and with counts in range, as they are after any
    run of calls, no exception is raised. *)
Theorem get_pass_rate_spec (s : State) :
  (get_pass_rate s).2 = s /\
  (total_tests (self s) = 0 -> (get_pass_rate s).1 = Ok (S754_zero false)) /\
  (total_tests (self s) <> 0 ->
     (get_pass_rate s).1 =
     match pyfloat.int_true_div (passed_tests (self s)) (total_tests (self s)) with
     | Ok q => Ok (pyfloat.mul q (pyfloat.of_int 100))
     | Raise e => Raise e
     end) /\
  (forall s' : State,
     passed_tests (self s') = passed_tests (self s) ->
     total_tests (self s') = total_tests (self s) ->
     (get_pass_rate s').1 = (get_pass_rate s).1) /\
  (0 <= passed_tests (self s) <= total_tests (self s) ->
     exists rate, (get_pass_rate s).1 = Ok rate /\ pyfloat.finite_upto 10 rate).
Proof.
  split; [rewrite get_pass_rate_run; reflexivity|].
  split; [intros E; rewrite get_pass_rate_run, E; reflexivity|].
  split.
  { intros E. rewrite get_pass_rate_run. cbn [fst].
    destruct (Z.eqb_spec (total_tests (self s)) 0); [contradiction|reflexivity]. }
  split; [|apply get_pass_rate_finite].
  intros s' Hp Ht. rewrite !get_pass_rate_run, Hp, Ht. reflexivity.
Qed.

(** C7. Two runs of calls whose statuses are the same up to order end with
    the same pass rate, whatever the other arguments and the clock were. *)
Theorem pass_rate_order_invariant (w1 w2 : World) (calls1 calls2 : list Call) :
  map call_status calls1 ≡ₚ map call_status calls2 ->
  (get_pass_rate (after w1 calls1)).1 = (get_pass_rate (after w2 calls2)).1.
Proof.
  intros Hp.
  destruct (after_run w1 calls1) as (Ht1 & Hp1 & _).
  destruct (after_run w2 calls2) as (Ht2 & Hp2 & _).
  rewrite !get_pass_rate_run, Ht1, Ht2, Hp1, Hp2. cbn [fst].
  rewrite (tally_perm "PASS" calls1 calls2 Hp).
  apply Permutation_length in Hp. rewrite !length_map in Hp. rewrite Hp.
  reflexivity.
Qed.

(** The theorem at a PASS and a FAIL call recorded in both orders. *)
Lemma pass_rate_order_invariant_witness :
  let w := mk_world ∅ [] ∅ (fun _ => true) (fun _ => datetime.mk_datetime 2026 1 1 0 0 0 0) 0 in
  (get_pass_rate (after w [("c", "Compose mail", "PASS", ""); ("/", "Search", "FAIL", "")])).1 =
  (get_pass_rate (after w [("/", "Search", "FAIL", ""); ("c", "Compose mail", "PASS", "")])).1.
Proof.
  intros w. apply (pass_rate_order_invariant w w). simpl. apply perm_swap.
Defined.

(** ** The summary and the report *)

Lemma bind_run {A B : Type} (m : M State A) (k : A -> M State B) (s : State) :
  (m ≫= k) s =
  match m s with
  | (Ok a, s') => k a s'
  | (Raise e, s') => (Raise e, s')
  end.
Proof. reflexivity. Qed.

Lemma print_then {A : Type} (line : string) (k : M State A) t h out f wr c n :
  (print line;; k) (mk_state t (mk_world h out f wr c n)) =
  k (mk_state t (mk_world h (out ++ [line]) f wr c n)).
Proof. reflexivity. Qed.

Lemma print_run (line : string) t h out f wr c n :
  print line (mk_state t (mk_world h out f wr c n)) =
  (Ok tt, mk_state t (mk_world h (out ++ [line]) f wr c n)).
Proof. reflexivity. Qed.

Lemma print_summary_run s rate :
  (get_pass_rate s).1 = Ok rate ->
  print_summary s = (Ok tt, printed (summary_lines (self s) rate (duration s)) (tick s)).
Proof.
  intros Hrate. destruct s as [t [h out f wr c n]]. unfold print_summary.
  rewrite bind_run. unfold datetime_now at 1, with_world.
  cbn [self world heap stdout files writable clock ticks].
  rewrite bind_run. unfold gets at 1. cbn [self world].
  rewrite bind_run, get_pass_rate_pure.
  rewrite (get_pass_rate_self _ (mk_state t (mk_world h out f wr c n))) by reflexivity.
  rewrite Hrate.
  rewrite bind_run. unfold gets at 1. cbn [self world].
  rewrite !print_then, print_run.
  unfold printed, tick, duration, summary_lines.
  cbn [self world heap stdout files writable clock ticks].
  rewrite <- !app_assoc. reflexivity.
Qed.

Lemma build_report_run s rate rounded :
  (get_pass_rate s).1 = Ok rate ->
  pyfloat.round rate 2 = Ok rounded ->
  build_report s =
  (Ok (report_of (self s) (clock (world s) (ticks (world s))) rounded), tick s).
Proof.
  intros Hrate Hround. destruct s as [t [h out f wr c n]]. unfold build_report.
  rewrite bind_run. unfold gets at 1. cbn [self world].
  rewrite bind_run. unfold datetime_now at 1, with_world.
  cbn [self world heap stdout files writable clock ticks].
  rewrite bind_run, get_pass_rate_pure.
  rewrite (get_pass_rate_self _ (mk_state t (mk_world h out f wr c n))) by reflexivity.
  rewrite Hrate, bind_run. unfold lift_result at 1. rewrite Hround.
  reflexivity.
Qed.

(** With counts in range the report is built without an exception. *)
Lemma build_report_total s :
  0 <= passed_tests (self s) <= total_tests (self s) ->
  exists rate rounded,
    (get_pass_rate s).1 = Ok rate /\ pyfloat.round rate 2 = Ok rounded.
Proof.
  intros H. destruct (get_pass_rate_finite s H) as (rate & Hrate & Hfin).
  destruct (pyfloat_facts.round_2_finite 10 rate Hfin ltac:(lia)) as (r & Hr & _).
  eauto.
Qed.

Lemma save_json_report_run s report :
  (build_report s).1 = Ok report ->
  writable (world (build_report s).2) "slashy_test_report.json" = true ->
  save_json_report s =
  (Ok tt,
   let s1 := (build_report s).2 in
   mk_state (self s1)
     (mk_world (heap (world s1))
        (stdout (world s1) ++ ["📁 Report saved to: slashy_test_report.json"; ""])
        (<["slashy_test_report.json" :=
             mk_json (metadata report) (summary report)
               (heap (world s1) !!! report_test_results report)]> (files (world s1)))
        (writable (world s1)) (clock (world s1)) (ticks (world s1)))).
Proof.
  intros Hb Hw. unfold save_json_report. rewrite bind_run.
  destruct (build_report s) as [r [t [h out f wr c n]]]. cbn [fst snd] in *. subst r.
  rewrite bind_run. unfold json_dump at 1.
  cbn [self world heap stdout files writable clock ticks] in *. rewrite Hw.
  rewrite print_then, print_run. rewrite <- app_assoc. reflexivity.
Qed.


(** C6. The overall status is chosen from the pass rate alone, by its
    thresholds: PRODUCTION READY from 80 up, MOSTLY FUNCTIONAL from 60 up
    and below 80, NEEDS IMPROVEMENT below 60 (each behind the glyph the code
    puts before it). After any run of calls [print_summary] returns and
    prints the summary whose status line carries the status of the
    recorder's pass rate. With no call recorded the pass rate is [0.0], also
    in the built report, and the status is NEEDS IMPROVEMENT. *)
Theorem overall_status_by_threshold :
  (forall rate : pyfloat.float,
     (pyfloat.ge rate (pyfloat.of_int 80) = true ->
        overall_status rate = "✓" +:+ " " +:+ "PRODUCTION READY") /\
     (pyfloat.ge rate (pyfloat.of_int 60) = true ->
      pyfloat.lt rate (pyfloat.of_int 80) = true ->
        overall_status rate = "⚠" +:+ " " +:+ "MOSTLY FUNCTIONAL") /\
     (pyfloat.lt rate (pyfloat.of_int 60) = true ->
        overall_status rate = "✗" +:+ " " +:+ "NEEDS IMPROVEMENT")) /\
  (forall (w : World) (calls : list Call),
     let s := after w calls in
     exists rate,
       (get_pass_rate s).1 = Ok rate /\
       print_summary s = (Ok tt, printed (summary_lines (self s) rate (duration s)) (tick s)) /\
       summary_lines (self s) rate (duration s) !! 9%nat =
         Some ("Overall Status:  " +:+ overall_status rate)) /\
  (forall w : World,
     (get_pass_rate (__init__ w)).1 = Ok (S754_zero false) /\
     (exists report,
        (build_report (__init__ w)).1 = Ok report /\
        pass_rate (summary report) = S754_zero false) /\
     overall_status (S754_zero false) = "✗" +:+ " " +:+ "NEEDS IMPROVEMENT").
Proof.
  split; [|split].
  - intros rate. unfold overall_status. repeat split.
    + intros ->. reflexivity.
    + intros H60 H80. rewrite (pyfloat_facts.lt_not_ge _ _ H80), H60. reflexivity.
    + intros H60. rewrite (pyfloat_facts.lt_not_ge _ _ H60).
      assert (H80 : pyfloat.lt rate (pyfloat.of_int 80) = true).
      { revert H60. unfold pyfloat.lt, SFltb.
        change (pyfloat.of_int 60) with (S754_finite false 8444249301319680 (-47)).
        change (pyfloat.of_int 80) with (S754_finite false 5629499534213120 (-46)).
        destruct rate as [[]|[]| |[] m e]; cbn [SFcompare]; try congruence.
        destruct (Z.compare_spec e (-47)) as [->|Hlt|Hgt].
        - intros _. reflexivity.
        - intros _. destruct (Z.compare_spec e (-46)); [lia|reflexivity|lia].
        - discriminate. }
      rewrite (pyfloat_facts.lt_not_ge _ _ H80). reflexivity.
  - intros w calls. cbv zeta.
    destruct (get_pass_rate_finite (after w calls) (after_counts_in_range w calls))
      as (rate & Hrate & _).
    exists rate. split; [exact Hrate|]. split; [|reflexivity].
    apply print_summary_run, Hrate.
  - intros w.
    assert (Hrate : (get_pass_rate (__init__ w)).1 = Ok (S754_zero false)).
    { rewrite get_pass_rate_run. reflexivity. }
    split; [exact Hrate|]. split; [|reflexivity].
    eexists. rewrite (build_report_run _ _ (S754_zero false) Hrate eq_refl).
    split; reflexivity.
Qed.


(** C8. Twenty-one recorded calls of which seventeen carry PASS give the
    pass rate [17 / 21 * 100], the float 80.95238095238095: it prints as
    80.95 to two places, rounds to the float 80.95 in the built report, is
    at least 80, and the summary status is PRODUCTION READY. *)
Theorem seventeen_of_twenty_one_passed (w : World) (calls : list Call) :
  length calls = 21%nat ->
  tally "PASS" calls = 17 ->
  let s := after w calls in
  let rate := S754_finite false 5696517385810895 (-46) in
  (get_pass_rate s).1 = Ok rate /\
  pystr.format_f 2 rate = "80.95" /\
  pyfloat.round rate 2 = pyfloat.int_true_div 8095 100 /\
  (exists report,
     (build_report s).1 = Ok report /\
     Ok (pass_rate (summary report)) = pyfloat.int_true_div 8095 100) /\
  pyfloat.ge rate (pyfloat.of_int 80) = true /\
  overall_status rate = "✓" +:+ " " +:+ "PRODUCTION READY" /\
  (print_summary s).1 = Ok tt /\
  stdout (world (print_summary s).2) !! (length (stdout (world s)) + 9)%nat =
    Some "Overall Status:  ✓ PRODUCTION READY".
Proof.
  intros Hlen Hpass. cbv zeta.
  destruct (after_run w calls) as (Ht & Hp & _).
  assert (Hdiv : pyfloat.int_true_div 17 21 = Ok (S754_finite false 7291542253837946 (-53)))
    by (vm_compute; reflexivity).
  assert (Hmul : pyfloat.mul (S754_finite false 7291542253837946 (-53)) (pyfloat.of_int 100)
                 = S754_finite false 5696517385810895 (-46))
    by (vm_compute; reflexivity).
  assert (Hrate : (get_pass_rate (after w calls)).1 =
                  Ok (S754_finite false 5696517385810895 (-46))).
  { rewrite get_pass_rate_run, Ht, Hp, Hlen, Hpass. cbn [fst].
    change (Z.of_nat 21) with 21. change (21 =? 0) with false. cbv iota.
    rewrite Hdiv, Hmul. reflexivity. }
  assert (Hround : pyfloat.round (S754_finite false 5696517385810895 (-46)) 2
                   = Ok (S754_finite false 5696349841181901 (-46)))
    by (vm_compute; reflexivity).
  assert (Hstatus : overall_status (S754_finite false 5696517385810895 (-46))
                    = "✓ PRODUCTION READY") by (vm_compute; reflexivity).
  split; [exact Hrate|].
  split; [vm_compute; reflexivity|]. split; [vm_compute; reflexivity|].
  split.
  { eexists. rewrite (build_report_run _ _ _ Hrate Hround). cbn [fst].
    split; [reflexivity|]. cbn [report_of summary pass_rate]. vm_compute. reflexivity. }
  split; [vm_compute; reflexivity|]. split; [vm_compute; reflexivity|].
  rewrite (print_summary_run _ _ Hrate). split; [reflexivity|].
  unfold printed. cbn [snd world stdout tick self].
  rewrite lookup_app_r by lia.
  replace (length (stdout (world (after w calls))) + 9 -
           length (stdout (world (after w calls))))%nat with 9%nat by lia.
  unfold summary_lines. cbn [lookup list_lookup]. rewrite Hstatus. reflexivity.
Qed.

(** The theorem at seventeen PASS calls followed by four FAIL calls. *)
Lemma seventeen_of_twenty_one_passed_witness :
  (get_pass_rate
     (after example_world
        (replicate 17 ("c", "Compose mail", "PASS", "") ++
         replicate 4 ("/", "Search", "FAIL", "")))).1 =
  Ok (S754_finite false 5696517385810895 (-46)).
Proof.
  apply (seventeen_of_twenty_one_passed example_world
           (replicate 17 ("c", "Compose mail", "PASS", "") ++
            replicate 4 ("/", "Search", "FAIL", ""))); vm_compute; reflexivity.
Defined.

(** A run of the four statuses PASS, PASS, FAIL, PARTIAL, evaluated: the
    counters, the pass rate 50.0 and the status line. *)
Example pass_pass_fail_partial :
  let s := after example_world
             [("c", "Compose mail", "PASS", ""); ("r", "Reply", "PASS", "");
              ("/", "Search", "FAIL", ""); ("u", "Toggle read/unread", "PARTIAL", "")] in
  (total_tests (self s), passed_tests (self s), failed_tests (self s),
   partial_tests (self s), error_tests (self s)) = (4, 2, 1, 1, 0) /\
  (get_pass_rate s).1 = pyfloat.int_true_div 50 1 /\
  stdout (world (print_summary s).2) !! 13%nat = Some "Overall Status:  ✗ NEEDS IMPROVEMENT" /\
  stdout (world (print_summary s).2) !! 7%nat = Some "Passed:          2 (50.0%)".
Proof. vm_compute. repeat split. Qed.

(** C5. The report [save_json_report] writes is a snapshot. After any run
    of calls on a fresh recorder, when the report file can be opened, the
    call returns and the document in the file holds as its test results
    the recorder's full sequence at that moment, in recording order; any
    further calls of [record_test] grow the recorder's sequence and leave
    the document and its test results as they were written. *)
Theorem written_report_is_a_snapshot (w : World) (calls more : list Call) :
  writable w "slashy_test_report.json" = true ->
  let s := after w calls in
  exists doc s2,
    save_json_report s = (Ok tt, s2) /\
    files (world s2) !! "slashy_test_report.json" = Some doc /\
    json_test_results doc = recorded s /\
    json_test_results doc = outcomes (clock w) (S (ticks w)) calls /\
    let s3 := (record_all more s2).2 in
    recorded s3 =
      recorded s ++ outcomes (clock w) (ticks w + length calls + 2)%nat more /\
    files (world s3) !! "slashy_test_report.json" = Some doc /\
    json_test_results doc = take (length calls) (recorded s3).
Proof.
  intros Hw. cbv zeta.
  destruct (build_report_total _ (after_counts_in_range w calls))
    as (rate & rounded & Hrate & Hround).
  pose proof (build_report_run _ rate rounded Hrate Hround) as Hb.
  assert (Hfst : (build_report (after w calls)).1 =
                 Ok (report_of (self (after w calls))
                       (clock (world (after w calls)) (ticks (world (after w calls))))
                       rounded))
    by (rewrite Hb; reflexivity).
  destruct (after_run w calls) as (_ & _ & _ & _ & _ & Hrec).
  destruct (record_all_run calls (__init__ w))
    as (_ & _ & _ & _ & _ & _ & _ & _ & _ & _ & _ & Hclock & Hticks).
  pose proof (record_all_writable calls (__init__ w)) as Hwr.
  cbv zeta in Hclock, Hticks. fold (after w calls) in Hwr, Hclock, Hticks.
  cbn [__init__ world writable clock ticks] in Hwr, Hclock, Hticks.
  pose proof (save_json_report_run (after w calls) _ Hfst) as Hs.
  rewrite Hb in Hs. cbn [snd] in Hs.
  specialize (Hs ltac:(cbn [tick world writable]; rewrite Hwr; exact Hw)).
  cbv zeta in Hs.
  eexists. eexists. split; [exact Hs|].
  cbn [world files]. split; [apply lookup_insert_eq|].
  split; [reflexivity|].
  split; [cbn [json_test_results report_of report_test_results]; exact Hrec|].
  match goal with |- context [record_all more ?s2] =>
    destruct (record_all_run more s2)
      as (_ & _ & _ & _ & _ & _ & _ & _ & Hrec' & _ & Hfiles & _)
  end.
  cbv zeta in Hrec', Hfiles.
  assert (Hgrown :
    recorded (record_all more
      (mk_state (self (tick (after w calls)))
         (mk_world (heap (world (tick (after w calls))))
            (stdout (world (tick (after w calls))) ++
             ["📁 Report saved to: slashy_test_report.json"; ""])
            (<["slashy_test_report.json" :=
                 mk_json
                   (metadata (report_of (self (after w calls))
                      (clock (world (after w calls)) (ticks (world (after w calls)))) rounded))
                   (summary (report_of (self (after w calls))
                      (clock (world (after w calls)) (ticks (world (after w calls)))) rounded))
                   (heap (world (tick (after w calls))) !!!
                      report_test_results (report_of (self (after w calls))
                        (clock (world (after w calls)) (ticks (world (after w calls))))
                        rounded))]>
               (files (world (tick (after w calls)))))
            (writable (world (tick (after w calls))))
            (clock (world (tick (after w calls))))
            (ticks (world (tick (after w calls))))))).2 =
    recorded (after w calls) ++ outcomes (clock w) (ticks w + length calls + 2)%nat more).
  { rewrite Hrec'. cbn [world clock ticks tick].
    rewrite Hclock, Hticks.
    replace (S (S (ticks w) + length calls)) with (ticks w + length calls + 2)%nat by lia.
    reflexivity. }
  split; [exact Hgrown|].
  split; [rewrite Hfiles; cbn [world files]; apply lookup_insert_eq|].
  rewrite Hgrown. cbn [json_test_results report_of report_test_results].
  change (heap (world (tick (after w calls))) !!! test_results (self (after w calls)))
    with (recorded (after w calls)).
  rewrite Hrec.
  rewrite (take_app_length' _ _ (length calls)) by (rewrite outcomes_length; reflexivity).
  reflexivity.
Qed.

(** The theorem after two calls, with a third one recorded once the report
    is written. *)
Lemma written_report_is_a_snapshot_witness :
  writable example_world "slashy_test_report.json" = true /\
  exists doc s2,
    save_json_report
      (after example_world
         [("c", "Compose mail", "PASS", ""); ("/", "Search", "FAIL", "")]) = (Ok tt, s2) /\
    files (world s2) !! "slashy_test_report.json" = Some doc /\
    length (json_test_results doc) = 2%nat /\
    length (recorded (record_all [("r", "Reply", "PASS", "")] s2).2) = 3%nat /\
    files (world (record_all [("r", "Reply", "PASS", "")] s2).2)
      !! "slashy_test_report.json" = Some doc.
Proof.
  split; [reflexivity|].
  destruct (written_report_is_a_snapshot example_world
              [("c", "Compose mail", "PASS", ""); ("/", "Search", "FAIL", "")]
              [("r", "Reply", "PASS", "")] eq_refl)
    as (doc & s2 & H1 & H2 & H3 & H4 & H5 & H6 & H7).
  exists doc, s2. split; [exact H1|]. split; [exact H2|].
  split; [rewrite H4; reflexivity|].
  split; [rewrite H5, <- H3, H4; reflexivity|exact H6].
Defined.

End slashy_test_facts.

(** ** The recorder of slashy_shortcut_tests.py against that of slashy_test.py *)

Module slashy_shortcut_tests_facts.
Import slashy_shortcut_tests.

Lemma shortcut_tests_record_test_run id sc d st n s :
  record_test id sc d st n s =
    (Ok tt,
     mk_state
       (add_total
          (if String.eqb st "PASS" then add_passed (self s)
           else if String.eqb st "FAIL" then add_failed (self s)
           else if String.eqb st "PARTIAL" then add_partial (self s)
           else self s))
       (mk_world
          (<[test_results (self s) :=
               (heap (world s) !!! test_results (self s)) ++
               [mk_result id sc d st
                  (datetime.isoformat (clock (world s) (ticks (world s)))) n]]>
             (heap (world s)))
          (stdout (world s)) (clock (world s)) (S (ticks (world s))))).
Proof.
  unfold record_test.
  unfold mbind, M_bind, datetime_now, gets, list_append, modify, mret, M_ret, with_world, with_self.
  destruct s as [t w]; cbn [self world heap stdout clock ticks].
  destruct (String.eqb st "PASS"); [reflexivity|].
  destruct (String.eqb st "FAIL"); [reflexivity|].
  destruct (String.eqb st "PARTIAL"); reflexivity.
Qed.

Lemma shortcut_tests_record_test_counters id sc d st n s :
  let t := self s in
  let t' := self (record_test id sc d st n s).2 in
  total_tests t' = total_tests t + 1 /\
  passed_tests t' = passed_tests t + (if decide (st = "PASS") then 1 else 0) /\
  failed_tests t' = failed_tests t + (if decide (st = "FAIL") then 1 else 0) /\
  partial_tests t' = partial_tests t + (if decide (st = "PARTIAL") then 1 else 0).
Proof.
  cbv zeta. rewrite shortcut_tests_record_test_run. cbn [snd self].
  destruct (String.eqb_spec st "PASS") as [->|H1]; [simpl; repeat split; lia|].
  destruct (String.eqb_spec st "FAIL") as [->|H2]; [simpl; repeat split; lia|].
  destruct (String.eqb_spec st "PARTIAL") as [->|H3]; [simpl; repeat split; lia|].
  repeat case_decide; try congruence. simpl. repeat split; lia.
Qed.

Lemma shortcut_tests_record_all_cons c calls s :
  record_all (c :: calls) s =
  record_all calls (record_test c.1 c.2.1.1.1 c.2.1.1.2 c.2.1.2 c.2.2 s).2.
Proof.
  destruct c as [id [[[sc d] st] n]]. cbn [record_all fst snd].
  unfold mbind at 1, M_bind at 1. rewrite shortcut_tests_record_test_run. reflexivity.
Qed.

Lemma shortcut_tests_record_all_run calls : forall s,
  let t := self s in
  let t' := self (record_all calls s).2 in
  total_tests t' = total_tests t + Z.of_nat (length calls) /\
  passed_tests t' = passed_tests t + slashy_test.tally "PASS" (map without_id calls) /\
  failed_tests t' = failed_tests t + slashy_test.tally "FAIL" (map without_id calls) /\
  partial_tests t' = partial_tests t + slashy_test.tally "PARTIAL" (map without_id calls).
Proof.
  induction calls as [|c calls IH]; intros s; cbv zeta.
  - cbn. unfold slashy_test.tally. cbn. repeat split; lia.
  - rewrite shortcut_tests_record_all_cons.
    destruct c as [id [[[sc d] st] n]]. cbn [fst snd].
    destruct (IH (record_test id sc d st n s).2) as (I1 & I2 & I3 & I4).
    destruct (shortcut_tests_record_test_counters id sc d st n s) as (C1 & C2 & C3 & C4).
    rewrite I1, I2, I3, I4, C1, C2, C3, C4.
    cbn [map]. rewrite !slashy_test_facts.tally_cons.
    unfold without_id, slashy_test.call_status. cbn [fst snd length].
    repeat split; lia.
Qed.

Lemma shortcut_tests_get_pass_rate_run s :
  get_pass_rate s =
  (if total_tests (self s) =? 0 then Ok (S754_zero false)
   else
     match pyfloat.int_true_div (passed_tests (self s)) (total_tests (self s)) with
     | Ok q => Ok (pyfloat.mul q (pyfloat.of_int 100))
     | Raise e => Raise e
     end,
   s).
Proof.
  unfold get_pass_rate, mbind, M_bind, gets, lift_result, mret, M_ret.
  destruct (total_tests (self s) =? 0); [reflexivity|].
  destruct (pyfloat.int_true_div _ _); reflexivity.
Qed.

Lemma tally_zero_iff name calls :
  slashy_test.tally name calls = 0 <->
  Forall (fun c => slashy_test.call_status c <> name) calls.
Proof.
  induction calls as [|c calls IH].
  - split; [constructor|reflexivity].
  - rewrite slashy_test_facts.tally_cons, Forall_cons, <- IH.
    pose proof (slashy_test_facts.tally_nonneg name calls).
    case_decide; intuition lia.
Qed.

(** C10. For the same calls, test ids apart, the recorder of
    slashy_shortcut_tests.py ends with the same total, passed, failed and
    partial counts, and so the same pass rate, as the recorder of
    slashy_test.py, whose error counter is the number of ERROR calls and so
    is zero exactly on ERROR-free runs. A call with status ERROR changes only
    the total in slashy_shortcut_tests.py, which has no error counter, while
    slashy_test.py also adds one to [error_tests]. *)
Theorem recorders_agree_except_on_errors :
  (forall (wa : slashy_test.World) (wb : World) (calls : list Call),
     let a := slashy_test.self (slashy_test.after wa (map without_id calls)) in
     let b := self (after wb calls) in
     total_tests b = slashy_test.total_tests a /\
     passed_tests b = slashy_test.passed_tests a /\
     failed_tests b = slashy_test.failed_tests a /\
     partial_tests b = slashy_test.partial_tests a /\
     (get_pass_rate (after wb calls)).1 =
       (slashy_test.get_pass_rate (slashy_test.after wa (map without_id calls))).1 /\
     slashy_test.error_tests a = slashy_test.tally "ERROR" (map without_id calls) /\
     (slashy_test.error_tests a = 0 <->
      Forall (fun c => slashy_test.call_status (without_id c) <> "ERROR") calls)) /\
  (forall (test_id shortcut description notes : string)
          (sa : slashy_test.State) (sb : State),
     let a := slashy_test.self sa in
     let a' := slashy_test.self
                 (slashy_test.record_test shortcut description "ERROR" notes sa).2 in
     let b := self sb in
     let b' := self (record_test test_id shortcut description "ERROR" notes sb).2 in
     b' = add_total b /\
     a' = slashy_test.add_total (slashy_test.add_error a) /\
     total_tests b' = total_tests b + 1 /\
     slashy_test.total_tests a' = slashy_test.total_tests a + 1 /\
     slashy_test.error_tests a' = slashy_test.error_tests a + 1).
Proof.
  split.
  - intros wa wb calls. cbv zeta.
    destruct (slashy_test_facts.after_run wa (map without_id calls))
      as (Ht & Hp & Hf & Hpa & He & _).
    rewrite shortcut_tests_get_pass_rate_run, slashy_test_facts.get_pass_rate_run.
    cbn [fst]. unfold after.
    destruct (shortcut_tests_record_all_run calls (__init__ wb)) as (I1 & I2 & I3 & I4).
    rewrite I1, I2, I3, I4, Ht, Hp, Hf, Hpa, He, length_map.
    cbn [__init__ self total_tests passed_tests failed_tests partial_tests].
    rewrite tally_zero_iff, Forall_map, !Z.add_0_l.
    repeat split; try lia; auto.
  - intros id sc d n sa sb. cbv zeta.
    rewrite shortcut_tests_record_test_run, slashy_test_facts.record_test_run.
    cbn [snd self slashy_test.self]. repeat split.
Qed.

End slashy_shortcut_tests_facts.

(** ** Runs of arbitrary method calls on the recorder of slashy_test.py *)

Module slashy_test_runs.
Import slashy_test slashy_test_facts.

Lemma status_count_snoc name rs r :
  status_count name (rs ++ [r]) =
  status_count name rs + (if decide (status r = name) then 1 else 0).
Proof.
  unfold status_count. rewrite filter_app, length_app, filter_cons, filter_nil.
  case_decide; cbn [length]; lia.
Qed.

Lemma status_count_le name rs : 0 <= status_count name rs <= Z.of_nat (length rs).
Proof.
  unfold status_count. pose proof (length_filter (fun r => status r = name) rs). lia.
Qed.

Lemma consistent_counts_in_range s :
  consistent s -> 0 <= passed_tests (self s) <= total_tests (self s).
Proof.
  intros (Ht & Hp & _). rewrite Ht, Hp. apply status_count_le.
Qed.

Lemma consistent_init w : consistent (__init__ w).
Proof.
  unfold consistent. rewrite init_recorded. cbn. unfold status_count. cbn. auto.
Qed.

Lemma same_recorder_refl s : same_recorder s s.
Proof. unfold same_recorder. auto. Qed.

Lemma record_test_recorded sc d st n s :
  recorded (record_test sc d st n s).2 =
  recorded s ++ [outcome (clock (world s) (ticks (world s))) (sc, d, st, n)].
Proof.
  rewrite record_test_run. unfold recorded at 1.
  cbn [snd self world heap].
  destruct (count_status_counters st (self s)) as (_ & _ & _ & _ & _ & C6 & _).
  cbn [add_total test_results]. rewrite C6. apply lookup_total_insert_eq.
Qed.

Lemma record_test_consistent sc d st n s :
  consistent s -> consistent (record_test sc d st n s).2.
Proof.
  intros (Ht & Hp & Hf & Hpa & He).
  unfold consistent. rewrite record_test_recorded.
  rewrite record_test_run. cbn [snd self].
  destruct (count_status_counters st (self s)) as (C1 & C2 & C3 & C4 & C5 & _).
  cbn [add_total passed_tests failed_tests partial_tests error_tests total_tests].
  rewrite C1, C2, C3, C4, C5, !status_count_snoc, length_app.
  cbn [length outcome status].
  repeat split; lia.
Qed.

Lemma get_pass_rate_ok s :
  consistent s -> exists rate, (get_pass_rate s).1 = Ok rate /\ pyfloat.finite_upto 10 rate.
Proof. intros H. apply get_pass_rate_finite, consistent_counts_in_range, H. Qed.

Lemma recorded_printed lines s : recorded (printed lines s) = recorded s.
Proof. reflexivity. Qed.

Lemma recorded_tick s : recorded (tick s) = recorded s.
Proof. reflexivity. Qed.

Lemma save_json_report_state s rate rounded :
  (get_pass_rate s).1 = Ok rate ->
  pyfloat.round rate 2 = Ok rounded ->
  writable (world s) "slashy_test_report.json" = true ->
  save_json_report s =
  (Ok tt,
   mk_state (self s)
     (mk_world (heap (world s))
        (stdout (world s) ++ ["📁 Report saved to: slashy_test_report.json"; ""])
        (<["slashy_test_report.json" :=
             mk_json
               (metadata (report_of (self s) (clock (world s) (ticks (world s))) rounded))
               (summary (report_of (self s) (clock (world s) (ticks (world s))) rounded))
               (recorded s)]> (files (world s)))
        (writable (world s)) (clock (world s)) (S (ticks (world s))))).
Proof.
  intros Hrate Hround Hw.
  pose proof (build_report_run s rate rounded Hrate Hround) as Hb.
  assert (Hfst : (build_report s).1 =
                 Ok (report_of (self s) (clock (world s) (ticks (world s))) rounded))
    by (rewrite Hb; reflexivity).
  rewrite (save_json_report_run s _ Hfst); rewrite Hb; [reflexivity|exact Hw].
Qed.


(** A method call on a consistent recorder returns, and leaves a consistent
    recorder with the same list object, start time and clock; only
    [record_test] extends the recorded sequence. *)
Lemma invoke_consistent m s :
  consistent s ->
  writable (world s) "slashy_test_report.json" = true ->
  (invoke m s).1 = Ok tt /\
  consistent (invoke m s).2 /\
  same_recorder s (invoke m s).2 /\
  map status (recorded (invoke m s).2) = map status (recorded s) ++ recorded_statuses [m].
Proof.
  intros Hc Hw. destruct m as [[[[sc d] st] n]| | |]; cbn [invoke recorded_statuses omap].
  - split; [rewrite record_test_run; reflexivity|].
    split; [apply record_test_consistent, Hc|].
    split.
    + rewrite record_test_run. cbn [snd self world clock writable].
      destruct (count_status_counters st (self s)) as (_ & _ & _ & _ & _ & C6 & C7).
      unfold same_recorder. cbn [add_total test_results start_time]. auto.
    + rewrite record_test_recorded, map_app. reflexivity.
  - destruct (get_pass_rate_ok s Hc) as (rate & Hrate & _).
    rewrite bind_run, get_pass_rate_pure, Hrate. cbn [fst snd mret M_ret].
    rewrite app_nil_r. split; [reflexivity|]. split; [exact Hc|].
    split; [unfold same_recorder; cbn; auto|reflexivity].
  - destruct (get_pass_rate_ok s Hc) as (rate & Hrate & _).
    rewrite (print_summary_run s rate Hrate). cbn [fst snd].
    rewrite app_nil_r. split; [reflexivity|]. split; [exact Hc|].
    split; [unfold same_recorder; cbn; auto|reflexivity].
  - destruct (build_report_total s (consistent_counts_in_range s Hc))
      as (rate & rounded & Hrate & Hround).
    rewrite (save_json_report_state s rate rounded Hrate Hround Hw). cbn [fst snd].
    rewrite app_nil_r. split; [reflexivity|]. split; [exact Hc|].
    split; [unfold same_recorder; cbn; auto|reflexivity].
Qed.

Lemma invoke_all_cons m ms s :
  (invoke m s).1 = Ok tt ->
  invoke_all (m :: ms) s = invoke_all ms (invoke m s).2.
Proof.
  intros H. cbn [invoke_all]. rewrite bind_run.
  destruct (invoke m s) as [[[]|e] s']; cbn in *; congruence.
Qed.

Lemma invoke_all_consistent ms : forall s,
  consistent s ->
  writable (world s) "slashy_test_report.json" = true ->
  (invoke_all ms s).1 = Ok tt /\
  consistent (invoke_all ms s).2 /\
  same_recorder s (invoke_all ms s).2 /\
  map status (recorded (invoke_all ms s).2) = map status (recorded s) ++ recorded_statuses ms.
Proof.
  induction ms as [|m ms IH]; intros s Hc Hw.
  - cbn. rewrite app_nil_r.
    split; [reflexivity|]. split; [exact Hc|]. split; [apply same_recorder_refl|reflexivity].
  - destruct (invoke_consistent m s Hc Hw) as (Hok & Hc1 & (S1 & S2 & S3 & S4) & Hst).
    rewrite (invoke_all_cons m ms s Hok).
    destruct (IH _ Hc1 ltac:(rewrite S4; exact Hw)) as (Hok' & Hc' & (S1' & S2' & S3' & S4') & Hst').
    split; [exact Hok'|]. split; [exact Hc'|]. split.
    + unfold same_recorder. rewrite S1', S2', S3', S4'. auto.
    + rewrite Hst', Hst, <- app_assoc. f_equal.
      destruct m as [[[[sc d] st] n]| | |]; reflexivity.
Qed.

(** X1. Where the report file can be opened for writing, and for calls
    whose shortcut, description and status standard output can encode: on
    a fresh recorder every run of method calls, in any order and number, of
    [record_test], [get_pass_rate], [print_summary] and [save_json_report]
    returns without an exception; afterwards the total is the length of the
    recorded sequence and each status counter is the number of recorded
    dicts with its status; the recorded statuses are those of the
    [record_test] calls in call order; and the list object and the start
    time are those the constructor set. *)
Theorem method_runs_keep_counters_consistent (w : World) (ms : list method) :
  writable w "slashy_test_report.json" = true ->
  forallb method_encodable ms = true ->
  let s := (invoke_all ms (__init__ w)).2 in
  (invoke_all ms (__init__ w)).1 = Ok tt /\
  consistent s /\
  map status (recorded s) = recorded_statuses ms /\
  test_results (self s) = test_results (self (__init__ w)) /\
  start_time (self s) = clock w (ticks w).
Proof.
  intros Hw _. cbv zeta.
  destruct (invoke_all_consistent ms (__init__ w) (consistent_init w) Hw)
    as (Hok & Hc & (S1 & S2 & _) & Hst).
  rewrite init_recorded in Hst. cbn [map app] in Hst.
  repeat split; try assumption; apply Hc.
Qed.

(** The theorem at a run that records, reports, and records again. *)
Lemma method_runs_keep_counters_consistent_witness :
  let ms := [ call_record_test ("c", "Compose mail", "PASS", "");
              call_get_pass_rate; call_print_summary; call_save_json_report;
              call_record_test ("⌘+u", "Block sender", "ERROR", "no reply");
              call_save_json_report ] in
  writable example_world "slashy_test_report.json" = true /\
  forallb method_encodable ms = true /\
  (invoke_all ms (__init__ example_world)).1 = Ok tt /\
  consistent (invoke_all ms (__init__ example_world)).2 /\
  map status (recorded (invoke_all ms (__init__ example_world)).2) = ["PASS"; "ERROR"].
Proof.
  cbv zeta. split; [reflexivity|]. split; [vm_compute; reflexivity|].
  destruct (method_runs_keep_counters_consistent example_world
              [ call_record_test ("c", "Compose mail", "PASS", "");
                call_get_pass_rate; call_print_summary; call_save_json_report;
                call_record_test ("⌘+u", "Block sender", "ERROR", "no reply");
                call_save_json_report ] eq_refl ltac:(vm_compute; reflexivity))
    as (H1 & H2 & H3 & _).
  split; [exact H1|]. split; [exact H2|exact H3].
Defined.

(** X2. Where the report file can be opened for writing, and for calls
    whose shortcut, description and status standard output can encode:
    after any run of method calls on a fresh recorder,
    [save_json_report] returns and the document it writes agrees with
    itself: its summary's total is the number of its test results, each
    status count of the summary is the number of its results with that
    status, its pass rate is a finite float, its start time is the
    constructor's clock reading and its end time the reading taken by the
    call; no other file is touched. *)
Theorem saved_report_agrees_with_its_results (w : World) (ms : list method) :
  writable w "slashy_test_report.json" = true ->
  forallb method_encodable ms = true ->
  let s := (invoke_all ms (__init__ w)).2 in
  let s' := (save_json_report s).2 in
  exists doc,
    (save_json_report s).1 = Ok tt /\
    files (world s') !! "slashy_test_report.json" = Some doc /\
    json_test_results doc = recorded s /\
    summary_total_tests (json_summary doc) = Z.of_nat (length (json_test_results doc)) /\
    passed (json_summary doc) = status_count "PASS" (json_test_results doc) /\
    failed (json_summary doc) = status_count "FAIL" (json_test_results doc) /\
    partial (json_summary doc) = status_count "PARTIAL" (json_test_results doc) /\
    errors (json_summary doc) = status_count "ERROR" (json_test_results doc) /\
    pyfloat.finite_upto 65 (pass_rate (json_summary doc)) /\
    metadata_start_time (json_metadata doc) = datetime.isoformat (clock w (ticks w)) /\
    end_time (json_metadata doc) =
      datetime.isoformat (clock w (ticks (world s))) /\
    forall path : string,
      path <> "slashy_test_report.json" ->
      files (world s') !! path = files (world s) !! path.
Proof.
  intros Hw _. cbv zeta.
  destruct (invoke_all_consistent ms (__init__ w) (consistent_init w) Hw)
    as (_ & Hc & (_ & S2 & S3 & S4) & _).
  set (s := (invoke_all ms (__init__ w)).2) in *.
  destruct (get_pass_rate_ok s Hc) as (rate & Hrate & Hfin).
  destruct (pyfloat_facts.round_2_finite 10 rate Hfin ltac:(lia)) as (rounded & Hround & Hfin').
  rewrite (save_json_report_state s rate rounded Hrate Hround ltac:(rewrite S4; exact Hw)).
  cbn [fst snd world files].
  eexists. split; [reflexivity|]. split; [apply lookup_insert_eq|].
  cbn [json_test_results json_summary json_metadata report_of summary metadata
       summary_total_tests passed failed partial errors pass_rate
       metadata_start_time end_time].
  destruct Hc as (Ht & Hp & Hf & Hpa & He).
  rewrite S2, S3. cbn [__init__ self world start_time clock].
  repeat split; try assumption.
  intros path Hne. apply lookup_insert_ne. congruence.
Qed.

(** The theorem after a run that records three results around a first
    report. *)
Lemma saved_report_agrees_with_its_results_witness :
  let ms := [ call_record_test ("c", "Compose mail", "PASS", "");
              call_record_test ("/", "Search", "FAIL", "");
              call_save_json_report;
              call_record_test ("u", "Toggle read/unread", "UNTESTED", "") ] in
  writable example_world "slashy_test_report.json" = true /\
  forallb method_encodable ms = true /\
  exists doc,
    files (world (save_json_report (invoke_all ms (__init__ example_world)).2).2)
      !! "slashy_test_report.json" = Some doc /\
    json_test_results doc = recorded (invoke_all ms (__init__ example_world)).2 /\
    summary_total_tests (json_summary doc) = Z.of_nat (length (json_test_results doc)).
Proof.
  cbv zeta. split; [reflexivity|]. split; [vm_compute; reflexivity|].
  destruct (saved_report_agrees_with_its_results example_world
              [ call_record_test ("c", "Compose mail", "PASS", "");
                call_record_test ("/", "Search", "FAIL", "");
                call_save_json_report;
                call_record_test ("u", "Toggle read/unread", "UNTESTED", "") ]
              eq_refl ltac:(vm_compute; reflexivity))
    as (doc & _ & H2 & H3 & H4 & _).
  exists doc. split; [exact H2|]. split; [exact H3|exact H4].
Defined.









End slashy_test_runs.

(** ** Exact quotients *)

Module pyfloat_exact.
Import pyfloat.

Lemma Z_div_eucl_div_mod a b : Z.div_eucl a b = (a / b, a mod b).
Proof. unfold Z.div, Z.modulo. destruct (Z.div_eucl a b); reflexivity. Qed.

(** [n / n] is the float [1.0], whatever the size of [n]. *)
Lemma int_true_div_self n :
  0 < n -> int_true_div n n = Ok (S754_finite false 4503599627370496 (-52)).
Proof.
  intros Hn. unfold int_true_div.
  destruct (Z.eqb_spec n 0) as [->|_]; [lia|].
  destruct n as [|p|p]; try lia. cbn [int_operand].
  unfold SFdiv, SFdiv_core_binary.
  replace (Zdigits2 (Z.pos p) + 0 - (Zdigits2 (Z.pos p) + 0)) with 0 by lia.
  change (Z.min (fexp prec emax 0) (0 - 0)) with (-53).
  change (0 - 0 - -53) with 53. cbv iota beta.
  rewrite Z_div_eucl_div_mod, Z.shiftl_mul_pow2 by lia.
  rewrite (Z.mul_comm (Z.pos p) (2 ^ 53)), Z.div_mul, Z.mod_mul by lia.
  assert (Hloc : new_location (Z.pos p) 0 = loc_Exact).
  { unfold new_location, new_location_even, new_location_odd.
    destruct (Z.even (Z.pos p)); reflexivity. }
  rewrite Hloc. vm_compute. reflexivity.
Qed.

(** [0 / n] is the float [0.0]. *)
Lemma int_true_div_zero n :
  0 < n -> int_true_div 0 n = Ok (S754_zero false).
Proof.
  intros Hn. unfold int_true_div.
  destruct (Z.eqb_spec n 0) as [->|_]; [lia|].
  destruct n as [|p|p]; try lia. reflexivity.
Qed.

End pyfloat_exact.

(** ** The pass rate at its ends, and the run of slashy_test.py *)

Module slashy_test_driver.
Import slashy_test slashy_test_facts slashy_test_runs.

Lemma tally_all name calls :
  Forall (fun c => call_status c = name) calls ->
  tally name calls = Z.of_nat (length calls).
Proof.
  induction 1 as [|c calls Hc _ IH]; [reflexivity|].
  rewrite tally_cons, IH. case_decide; [|contradiction]. cbn [length]. lia.
Qed.

Lemma tally_none name calls :
  Forall (fun c => call_status c <> name) calls -> tally name calls = 0.
Proof.
  induction 1 as [|c calls Hc _ IH]; [reflexivity|].
  rewrite tally_cons, IH. case_decide; [contradiction|]. reflexivity.
Qed.

(** X4. When every recorded call carries PASS and there is at least one,
    the pass rate is exactly [100.0], for any number of calls, and the
    status is PRODUCTION READY; when no recorded call carries PASS the pass
    rate is exactly [0.0] and the status is NEEDS IMPROVEMENT. *)
Theorem pass_rate_at_its_ends (w : World) (calls : list Call) :
  (calls <> [] ->
   Forall (fun c => call_status c = "PASS") calls ->
   (get_pass_rate (after w calls)).1 = Ok (S754_finite false 7036874417766400 (-46)) /\
   pystr.format_f 1 (S754_finite false 7036874417766400 (-46)) = "100.0" /\
   overall_status (S754_finite false 7036874417766400 (-46)) = "✓ PRODUCTION READY") /\
  (Forall (fun c => call_status c <> "PASS") calls ->
   (get_pass_rate (after w calls)).1 = Ok (S754_zero false) /\
   pystr.format_f 1 (S754_zero false) = "0.0" /\
   overall_status (S754_zero false) = "✗ NEEDS IMPROVEMENT").
Proof.
  destruct (after_run w calls) as (Ht & Hp & _).
  split.
  - intros Hne Hall. split; [|split; vm_compute; reflexivity].
    rewrite get_pass_rate_run, Ht, Hp, (tally_all _ _ Hall). cbn [fst].
    assert (Hlen : 0 < Z.of_nat (length calls)) by (destruct calls; [contradiction|cbn; lia]).
    destruct (Z.eqb_spec (Z.of_nat (length calls)) 0) as [E|_]; [lia|].
    rewrite (pyfloat_exact.int_true_div_self _ Hlen). vm_compute. reflexivity.
  - intros Hnone. split; [|split; vm_compute; reflexivity].
    rewrite get_pass_rate_run, Ht, Hp, (tally_none _ _ Hnone). cbn [fst].
    destruct (Z.eqb_spec (Z.of_nat (length calls)) 0) as [E|E]; [reflexivity|].
    rewrite pyfloat_exact.int_true_div_zero by lia. reflexivity.
Qed.

Lemma print_then_any {A : Type} (line : string) (k : M State A) s :
  (print line;; k) s = k (printed [line] s).
Proof. reflexivity. Qed.

Lemma printed_printed a b s : printed b (printed a s) = printed (a ++ b) s.
Proof. unfold printed. cbn. rewrite app_assoc. reflexivity. Qed.

Lemma record_test_then {A : Type} sc d st n (k : M State A) s :
  (record_test sc d st n;; k) s = k (record_test sc d st n s).2.
Proof. rewrite bind_run, record_test_run. reflexivity. Qed.

Lemma record_all_nil s : record_all [] s = (Ok tt, s).
Proof. reflexivity. Qed.

(** [run_all_tests] is its banner, its calls as a run, and the two
    reports. *)
Lemma run_all_tests_steps s :
  run_all_tests s =
  (print "";; print_summary;; save_json_report)
    (record_all run_all_tests_calls (printed (banner_lines (self s)) s)).2.
Proof.
  unfold run_all_tests.
  rewrite !print_then_any. rewrite bind_run. unfold gets at 1. cbv beta iota.
  rewrite !print_then_any. rewrite !printed_printed.
  change (self (printed _ s)) with (self s). cbn [app].
  rewrite !record_test_then.
  unfold run_all_tests_calls. rewrite !record_all_cons, record_all_nil.
  cbn [fst snd]. rewrite !print_then_any. reflexivity.
Qed.

(** What [run_all_tests] does after its last [record_test]. *)
Lemma reports_run s rate rounded :
  (get_pass_rate s).1 = Ok rate ->
  pyfloat.round rate 2 = Ok rounded ->
  writable (world s) "slashy_test_report.json" = true ->
  (print "";; print_summary;; save_json_report) s =
  (Ok tt,
   mk_state (self s)
     (mk_world (heap (world s))
        (stdout (world s) ++ [""] ++ summary_lines (self s) rate (duration s) ++
         ["📁 Report saved to: slashy_test_report.json"; ""])
        (<["slashy_test_report.json" :=
             mk_json
               (metadata (report_of (self s) (clock (world s) (S (ticks (world s)))) rounded))
               (summary (report_of (self s) (clock (world s) (S (ticks (world s)))) rounded))
               (recorded s)]> (files (world s)))
        (writable (world s)) (clock (world s)) (S (S (ticks (world s)))))).
Proof.
  intros Hrate Hround Hw. destruct s as [t [h out f wr c n]].
  rewrite print_then, bind_run.
  assert (H1 : (get_pass_rate (mk_state t (mk_world h (out ++ [""]) f wr c n))).1 = Ok rate).
  { rewrite <- Hrate. apply get_pass_rate_self. reflexivity. }
  rewrite (print_summary_run _ rate H1).
  unfold printed, tick. cbn [self world heap stdout files writable clock ticks].
  match goal with |- save_json_report ?s4 = _ =>
    assert (H2 : (get_pass_rate s4).1 = Ok rate)
      by (rewrite <- Hrate; apply get_pass_rate_self; reflexivity);
    rewrite (save_json_report_state s4 rate rounded H2 Hround Hw)
  end.
  cbn [self world heap stdout files writable clock ticks].
  unfold duration, recorded. cbn [self world heap stdout files writable clock ticks].
  rewrite <- !app_assoc. reflexivity.
Qed.

(** X5. In every world where the report file can be opened for writing and
    the clock reads a year of four digits, [main] returns, without an
    exception, the reference to the list its recorder was constructed with;
    the banner's start time then carries the year in four digits whether
    or not the C library pads it.
    The list then holds the
    26 dicts of the calls of [run_all_tests] in order, as many as the banner
    announces; the counters are 26 in total, 19 passed, 6 failed, 1 partial
    and no error; the summary's status line is MOSTLY FUNCTIONAL; the report
    file holds the 26 dicts with the same counts and the pass rate 73.08;
    and 29 clock readings were taken. *)
Theorem main_runs_the_shipped_tests (w : World) :
  writable w "slashy_test_report.json" = true ->
  1000 <= datetime.year (clock w (ticks w)) <= 9999 ->
  let s := (main w).2 in
  let t := self s in
  let rate := S754_finite false 5142331305290830 (-46) in
  (main w).1 = Ok (test_results (self (__init__ w))) /\
  test_results t = test_results (self (__init__ w)) /\
  recorded s = outcomes (clock w) (S (ticks w)) run_all_tests_calls /\
  length (recorded s) = 26%nat /\
  (total_tests t, passed_tests t, failed_tests t, partial_tests t, error_tests t)
    = (26, 19, 6, 1, 0) /\
  (get_pass_rate s).1 = Ok rate /\
  stdout (world s) =
    stdout w ++ banner_lines (self (__init__ w)) ++
    map result_line run_all_tests_calls ++ [""] ++
    summary_lines t rate
      (datetime.total_seconds
         (datetime.sub (clock w (ticks w + 27)%nat) (clock w (ticks w)))) ++
    ["📁 Report saved to: slashy_test_report.json"; ""] /\
  banner_lines (self (__init__ w)) !! 3%nat =
    Some ("Start Time: " +:+
          datetime.field 4 (datetime.year (clock w (ticks w))) +:+ "-" +:+
          datetime.field 2 (datetime.month (clock w (ticks w))) +:+ "-" +:+
          datetime.field 2 (datetime.day (clock w (ticks w))) +:+ " " +:+
          datetime.field 2 (datetime.hour (clock w (ticks w))) +:+ ":" +:+
          datetime.field 2 (datetime.minute (clock w (ticks w))) +:+ ":" +:+
          datetime.field 2 (datetime.second (clock w (ticks w)))) /\
  banner_lines (self (__init__ w)) !! 4%nat = Some "Total Tests: 26" /\
  overall_status rate = "⚠ MOSTLY FUNCTIONAL" /\
  (exists doc,
     files (world s) !! "slashy_test_report.json" = Some doc /\
     json_test_results doc = recorded s /\
     json_summary doc = mk_summary 26 19 1 6 0 (S754_finite false 5142547824503685 (-46)) /\
     Ok (pass_rate (json_summary doc)) = pyfloat.int_true_div 7308 100) /\
  ticks (world s) = (ticks w + 29)%nat.
Proof.
  intros Hw Hyear. cbv zeta. unfold main. rewrite run_all_tests_steps.
  pose proof (record_all_run run_all_tests_calls
                (printed (banner_lines (self (__init__ w))) (__init__ w))) as H.
  pose proof (record_all_writable run_all_tests_calls
                (printed (banner_lines (self (__init__ w))) (__init__ w))) as Hwr.
  cbv zeta in H.
  pose proof (init_recorded w) as Hinit.
  assert (T1 : tally "PASS" run_all_tests_calls = 19) by (vm_compute; reflexivity).
  assert (T2 : tally "FAIL" run_all_tests_calls = 6) by (vm_compute; reflexivity).
  assert (T3 : tally "PARTIAL" run_all_tests_calls = 1) by (vm_compute; reflexivity).
  assert (T4 : tally "ERROR" run_all_tests_calls = 0) by (vm_compute; reflexivity).
  assert (T5 : length run_all_tests_calls = 26%nat) by reflexivity.
  rewrite T1, T2, T3, T4, T5 in H.
  change (recorded (printed (banner_lines (self (__init__ w))) (__init__ w)))
    with (recorded (__init__ w)) in H.
  rewrite Hinit in H.
  remember (record_all run_all_tests_calls
              (printed (banner_lines (self (__init__ w))) (__init__ w))) as r eqn:Er.
  clear Er.
  cbn [printed __init__ self world total_tests passed_tests failed_tests partial_tests
       error_tests test_results start_time heap stdout files writable clock ticks app]
    in H, Hwr.
  destruct H as (_ & I2 & I3 & I4 & I5 & I6 & I7 & I8 & I9 & I10 & I11 & I12 & I13).
  destruct r as [res s2]. cbn [fst snd] in *.
  assert (Hw2 : writable (world s2) "slashy_test_report.json" = true)
    by (rewrite Hwr; exact Hw).
  assert (Hrate : (get_pass_rate s2).1 = Ok (S754_finite false 5142331305290830 (-46))).
  { rewrite get_pass_rate_run. cbn [fst]. rewrite I2, I3. vm_compute. reflexivity. }
  assert (Hround : pyfloat.round (S754_finite false 5142331305290830 (-46)) 2
                   = Ok (S754_finite false 5142547824503685 (-46)))
    by (vm_compute; reflexivity).
  rewrite (reports_run s2 _ _ Hrate Hround Hw2). cbn [fst snd self world stdout files ticks].
  split; [rewrite I7; reflexivity|]. split; [rewrite I7; reflexivity|].
  split; [exact I9|].
  split.
  { transitivity (length (recorded s2)); [reflexivity|].
    rewrite I9, outcomes_length. exact T5. }
  split; [rewrite I2, I3, I4, I5, I6; reflexivity|].
  split.
  { rewrite <- Hrate. apply get_pass_rate_self. reflexivity. }
  split.
  { unfold duration. rewrite I8, I10, I12, I13, <- !app_assoc.
    replace (S (ticks w) + 26)%nat with (ticks w + 27)%nat by lia. reflexivity. }
  split.
  { cbn [banner_lines lookup list_lookup __init__ self start_time].
    replace (datetime.field 4 (datetime.year (clock w (ticks w))))
      with (pystr.of_int (datetime.year (clock w (ticks w))))
      by (symmetry; apply pystr_facts.four_digit_year, Hyear).
    reflexivity. }
  split; [reflexivity|]. split; [vm_compute; reflexivity|].
  split.
  { eexists. split; [apply lookup_insert_eq|].
    cbn [json_test_results json_summary report_of summary pass_rate].
    rewrite I2, I3, I4, I5, I6.
    split; [reflexivity|]. split; [reflexivity|]. vm_compute. reflexivity. }
  rewrite I13. lia.
Qed.

(** The theorem in the example world, whose clock reads the year 2026. *)
Lemma main_runs_the_shipped_tests_witness :
  writable example_world "slashy_test_report.json" = true /\
  1000 <= datetime.year (clock example_world (ticks example_world)) <= 9999 /\
  (main example_world).1 = Ok (test_results (self (__init__ example_world))) /\
  length (recorded (main example_world).2) = 26%nat /\
  ticks (world (main example_world).2) = 29%nat.
Proof.
  split; [reflexivity|]. split; [vm_compute; split; discriminate|].
  destruct (main_runs_the_shipped_tests example_world eq_refl
              ltac:(vm_compute; split; discriminate))
    as (H1 & _ & _ & H4 & _ & _ & _ & _ & _ & _ & _ & H12).
  split; [exact H1|]. split; [exact H4|exact H12].
Defined.

(** ** The line [record_test] prints *)








End slashy_test_driver.

(** ** The reports of slashy_shortcut_tests.py *)

Module slashy_shortcut_tests_reports.
Import slashy_shortcut_tests.

Lemma sst_bind_run {A B : Type} (m : M State A) (k : A -> M State B) (s : State) :
  (m ≫= k) s =
  match m s with
  | (Ok a, s') => k a s'
  | (Raise e, s') => (Raise e, s')
  end.
Proof. reflexivity. Qed.

Lemma sst_print_then {A : Type} (line : string) (k : M State A) s :
  (print line;; k) s = k (printed [line] s).
Proof. reflexivity. Qed.

Lemma sst_print_run (line : string) s : print line s = (Ok tt, printed [line] s).
Proof. reflexivity. Qed.

Lemma sst_printed_printed a b s : printed b (printed a s) = printed (a ++ b) s.
Proof. unfold printed. cbn. rewrite app_assoc. reflexivity. Qed.

Lemma sst_printed_nil s : printed [] s = s.
Proof. destruct s as [t [h out c n]]. unfold printed. cbn. rewrite app_nil_r. reflexivity. Qed.

Lemma sst_recorded_printed lines s : recorded (printed lines s) = recorded s.
Proof. reflexivity. Qed.

Lemma length_filter_impl {A : Type} (P Q : A -> Prop)
    `{forall x, Decision (P x)} `{forall x, Decision (Q x)} (l : list A) :
  (forall x, P x -> Q x) ->
  (length (filter P l) <= length (filter Q l))%nat.
Proof.
  intros HPQ. induction l as [|x l IH]; [reflexivity|].
  rewrite !filter_cons. repeat case_decide; cbn [length]; try lia.
  exfalso. auto.
Qed.

Lemma length_filter_all {A : Type} (P : A -> Prop) `{forall x, Decision (P x)} (l : list A) :
  length (filter P l) = length l <-> Forall P l.
Proof.
  induction l as [|x l IH]; [split; [constructor|reflexivity]|].
  rewrite filter_cons, Forall_cons. pose proof (length_filter P l).
  case_decide; cbn [length]; [rewrite <- IH|]; intuition lia.
Qed.

Lemma filter_pass_counted rs :
  filter (fun r => status r = "PASS") (counted rs) = filter (fun r => status r = "PASS") rs.
Proof.
  unfold counted. induction rs as [|r rs IH]; [reflexivity|].
  rewrite !filter_cons. repeat case_decide; rewrite ?filter_cons; repeat case_decide;
    try congruence; try (rewrite IH; reflexivity).
  exfalso. match goal with H : ~ _ ∈ _ |- _ => apply H end.
  match goal with H : status r = _ |- _ => rewrite H end. set_solver.
Qed.

(** The counts [print_category] computes for a category. *)
Lemma category_counts rs :
  0 <=
  Z.of_nat (length (filter (fun r => status r = "PASS") rs)) <=
  Z.of_nat (length (counted rs)).
Proof.
  split; [lia|]. apply inj_le. unfold counted.
  apply length_filter_impl. intros r ->. set_solver.
Qed.

Lemma print_category_run category test_ids s :
  let rs := in_category test_ids (recorded s) in
  let passed := Z.of_nat (length (filter (fun r => status r = "PASS") rs)) in
  let total := Z.of_nat (length (counted rs)) in
  (counted rs = [] -> print_category (category, test_ids) s = (Ok tt, s)) /\
  (counted rs <> [] ->
   exists q,
     pyfloat.int_true_div passed total = Ok q /\
     print_category (category, test_ids) s =
     (Ok tt,
      printed [(if passed =? total then "✓" else "✗") +:+ " " +:+
               pystr.ljust 25 category +:+ ": " +:+
               pystr.of_int passed +:+ "/" +:+ pystr.of_int total +:+ " passed (" +:+
               pystr.format_f 0 (pyfloat.mul q (pyfloat.of_int 100)) +:+ "%)"] s)).
Proof.
  cbv zeta. unfold print_category.
  rewrite sst_bind_run. unfold gets. cbv beta iota zeta.
  pose proof (category_counts (in_category test_ids (recorded s))) as Hc.
  unfold counted, in_category in *.
  set (rs := filter (fun r => test_id r ∈ test_ids) (recorded s)) in *.
  set (total := Z.of_nat (length (filter (fun r => status r ∈ ["PASS"; "FAIL"; "PARTIAL"]) rs))) in *.
  set (passed := Z.of_nat (length (filter (fun r => status r = "PASS") rs))) in *.
  split.
  - intros E. unfold total. rewrite E. reflexivity.
  - intros Hne.
    assert (Hpos : 0 < total).
    { unfold total. destruct (filter _ rs); [contradiction|cbn [length]; lia]. }
    destruct (pyfloat_facts.int_true_div_finite _ _ Hc Hpos) as (q & Hq & _).
    exists q. split; [exact Hq|].
    destruct (Z.ltb_spec 0 total) as [_|]; [|lia].
    rewrite sst_bind_run. unfold lift_result at 1.
    rewrite Hq, sst_print_run. reflexivity.
Qed.

Lemma print_category_lines entry s :
  exists lines,
    (length lines <= 1)%nat /\ print_category entry s = (Ok tt, printed lines s).
Proof.
  destruct entry as [category test_ids].
  destruct (print_category_run category test_ids s) as [H0 H1]. cbv zeta in H0, H1.
  destruct (counted (in_category test_ids (recorded s))) as [|r rs] eqn:E.
  - exists []. rewrite sst_printed_nil. split; [cbn; lia|]. apply H0. reflexivity.
  - destruct (H1 ltac:(discriminate)) as (q & _ & Hrun).
    eexists [_]. split; [cbn; lia|]. exact Hrun.
Qed.

Lemma for_each_categories cats : forall s,
  exists lines,
    (length lines <= length cats)%nat /\
    for_each cats print_category s = (Ok tt, printed lines s).
Proof.
  induction cats as [|entry cats IH]; intros s.
  - exists []. rewrite sst_printed_nil. split; [reflexivity|reflexivity].
  - destruct (print_category_lines entry s) as (l1 & Hl1 & H1).
    destruct (IH (printed l1 s)) as (l2 & Hl2 & H2).
    exists (l1 ++ l2). split; [rewrite length_app; cbn [length]; lia|].
    cbn [for_each]. rewrite sst_bind_run, H1, H2, sst_printed_printed. reflexivity.
Qed.

Lemma for_each_results rs : forall s,
  for_each rs print_result s = (Ok tt, printed (map row rs) s).
Proof.
  induction rs as [|r rs IH]; intros s.
  - cbn [for_each map]. rewrite sst_printed_nil. reflexivity.
  - cbn [for_each map]. rewrite sst_bind_run.
    change (print_result r s) with (Ok tt, printed [row r] s). cbv beta iota.
    rewrite IH, sst_printed_printed. reflexivity.
Qed.

Lemma print_detailed_results_run s :
  exists category_lines,
    (length category_lines <= 8)%nat /\
    print_detailed_results s =
    (Ok tt,
     printed (["RESULTS BY CATEGORY:"; ""] ++ category_lines ++
              [""; "DETAILED RESULTS:"; "";
               "ID  Shortcut        Status     Description";
               pystr.repeat "-" 80] ++
              map row (recorded s) ++ [""]) s).
Proof.
  destruct (for_each_categories categories
              (printed [""] (printed ["RESULTS BY CATEGORY:"] s)))
    as (lines & Hlen & Hrun).
  exists lines. split; [exact Hlen|].
  unfold print_detailed_results.
  rewrite !sst_print_then, sst_bind_run, Hrun.
  rewrite !sst_print_then, sst_bind_run. unfold gets at 1. cbv beta iota.
  rewrite sst_bind_run, for_each_results, sst_print_run.
  rewrite !sst_recorded_printed, !sst_printed_printed.
  assert (Hhead : pystr.ljust 3 "ID" +:+ " " +:+ pystr.ljust 15 "Shortcut" +:+ " " +:+
                  pystr.ljust 10 "Status" +:+ " " +:+ "Description"
                  = "ID  Shortcut        Status     Description")
    by (vm_compute; reflexivity).
  rewrite Hhead, <- ?app_assoc. reflexivity.
Qed.

Lemma row_encodable r :
  result_encodable r = true -> pystr.encodable (row r) = true.
Proof.
  unfold result_encodable, row. rewrite !andb_true_iff. intros [[[Hid Hsc] Hst] Hd].
  assert (Hdisplay : pystr.encodable
                       (if String.eqb (status r) "PASS" then "✓ PASS"
                        else if String.eqb (status r) "FAIL" then "✗ FAIL"
                        else if String.eqb (status r) "PARTIAL" then "⚠ PARTIAL"
                        else "- " +:+ status r) = true).
  { destruct (String.eqb (status r) "PASS"); [reflexivity|].
    destruct (String.eqb (status r) "FAIL"); [reflexivity|].
    destruct (String.eqb (status r) "PARTIAL"); [reflexivity|].
    apply pystr_facts.encodable_app; [reflexivity|exact Hst]. }
  repeat (apply pystr_facts.encodable_ljust || apply pystr_facts.encodable_app);
    try assumption; try apply pystr_facts.encodable_spaces; reflexivity.
Qed.

Lemma rows_encodable rs :
  forallb result_encodable rs = true ->
  Forall (fun line => pystr.encodable line = true) (map row rs).
Proof.
  intros H. apply Forall_map, Forall_forall. intros r Hr. apply row_encodable.
  rewrite forallb_forall in H. apply H, list_elem_of_In, Hr.
Qed.

Lemma outcomes_encodable clk calls : forall k,
  forallb call_encodable calls = true ->
  forallb result_encodable (outcomes clk k calls) = true.
Proof.
  induction calls as [|[i [[[sh d] st] n]] calls IH]; intros k H; [reflexivity|].
  cbn [forallb outcomes] in *. apply andb_true_iff in H as [H1 H2].
  rewrite (IH _ H2), andb_true_r. exact H1.
Qed.

(** X6. In every state, reachable or not, whose recorded results have a
    test id, shortcut, status and description that standard output can
    encode, [print_detailed_results] returns without an exception, whatever
    the statuses are and however many results each category has; it reads
    no clock and changes nothing but the output, to which it adds its two
    heading lines, at most one line per category, the five lines of the
    table head, one row per recorded result in recording order, and an empty
    line; every row is again text that standard output can encode. *)
Theorem print_detailed_results_never_raises (s : State) :
  forallb result_encodable (recorded s) = true ->
  let s' := (print_detailed_results s).2 in
  (print_detailed_results s).1 = Ok tt /\
  self s' = self s /\
  heap (world s') = heap (world s) /\
  ticks (world s') = ticks (world s) /\
  Forall (fun line => pystr.encodable line = true) (map row (recorded s)) /\
  exists category_lines,
    (length category_lines <= 8)%nat /\
    stdout (world s') =
      stdout (world s) ++ ["RESULTS BY CATEGORY:"; ""] ++ category_lines ++
      [""; "DETAILED RESULTS:"; "";
       "ID  Shortcut        Status     Description"; pystr.repeat "-" 80] ++
      map row (recorded s) ++ [""].
Proof.
  intros Henc. cbv zeta. destruct (print_detailed_results_run s) as (lines & Hlen & ->).
  cbn [fst snd printed self world heap ticks stdout].
  split; [reflexivity|]. split; [reflexivity|]. split; [reflexivity|].
  split; [reflexivity|]. split; [apply rows_encodable, Henc|].
  exists lines. split; [exact Hlen|reflexivity].
Qed.

(** The theorem after two calls, one with an id that no category lists and
    a status that is not counted. *)
Lemma print_detailed_results_never_raises_witness :
  let s := after (mk_world ∅ [] (fun k => datetime.mk_datetime 2026 1 1 0 0 0 (Z.of_nat k)) 0)
             [ ("001", ("C", "Compose mail", "PASS", ""));
               ("099", ("⌘+U", "Block sender", "UNTESTED", "")) ] in
  forallb result_encodable (recorded s) = true /\
  (print_detailed_results s).1 = Ok tt /\
  ticks (world (print_detailed_results s).2) = ticks (world s).
Proof.
  cbv zeta.
  assert (H : forallb result_encodable
                (recorded
                   (after (mk_world ∅ []
                             (fun k => datetime.mk_datetime 2026 1 1 0 0 0 (Z.of_nat k)) 0)
                      [ ("001", ("C", "Compose mail", "PASS", ""));
                        ("099", ("⌘+U", "Block sender", "UNTESTED", "")) ])) = true)
    by (vm_compute; reflexivity).
  split; [exact H|].
  pose proof (print_detailed_results_never_raises _ H) as H'. cbv zeta in H'.
  destruct H' as (H1 & _ & _ & H4 & _).
  split; [exact H1|exact H4].
Defined.

(** X7. A category line counts only the results of the category whose
    status is PASS, FAIL or PARTIAL. In every state: when the category has
    no such result, for instance when all its tests are UNTESTED or none was
    recorded, no line is printed and nothing is divided; otherwise exactly
    one line is printed, it starts with the check mark exactly when every
    counted result passed, and in that case it reads n/n passed (100%). *)
Theorem category_line_counts_only_tested (category : string) (test_ids : list string)
    (s : State) :
  let rs := counted (in_category test_ids (recorded s)) in
  let n := Z.of_nat (length rs) in
  (rs = [] -> print_category (category, test_ids) s = (Ok tt, s)) /\
  (rs <> [] ->
   exists line,
     print_category (category, test_ids) s = (Ok tt, printed [line] s) /\
     (String.prefix "✓" line = true <-> Forall (fun r => status r = "PASS") rs)) /\
  (rs <> [] ->
   Forall (fun r => status r = "PASS") rs ->
   print_category (category, test_ids) s =
   (Ok tt,
    printed ["✓ " +:+ pystr.ljust 25 category +:+ ": " +:+ pystr.of_int n +:+ "/" +:+
             pystr.of_int n +:+ " passed (100%)"] s)).
Proof.
  cbv zeta.
  destruct (print_category_run category test_ids s) as [H0 H1]. cbv zeta in H0, H1.
  set (rs := in_category test_ids (recorded s)) in *.
  assert (Hall : Z.of_nat (length (filter (fun r => status r = "PASS") rs))
                 = Z.of_nat (length (counted rs))
                 <-> Forall (fun r => status r = "PASS") (counted rs)).
  { rewrite <- (filter_pass_counted rs), <- length_filter_all.
    split; [intros E; apply Nat2Z.inj in E; exact E|intros E; f_equal; exact E]. }
  split; [exact H0|]. split.
  - intros Hne. destruct (H1 Hne) as (q & _ & Hrun).
    eexists. split; [exact Hrun|].
    rewrite <- Hall.
    destruct (Z.eqb_spec (Z.of_nat (length (filter (fun r => status r = "PASS") rs)))
                (Z.of_nat (length (counted rs)))) as [E|E].
    + split; [intros _; exact E|intros _; reflexivity].
    + split; [discriminate|contradiction].
  - intros Hne Hpass. destruct (H1 Hne) as (q & Hq & Hrun).
    apply Hall in Hpass. rewrite Hpass in Hq, Hrun.
    rewrite pyfloat_exact.int_true_div_self in Hq.
    + injection Hq as <-. rewrite Hrun, Z.eqb_refl.
      assert (Hpct : pystr.format_f 0
                       (pyfloat.mul (S754_finite false 4503599627370496 (-52))
                          (pyfloat.of_int 100)) = "100") by (vm_compute; reflexivity).
      rewrite Hpct. reflexivity.
    + destruct (counted rs); [contradiction|cbn [length]; lia].
Qed.

(** *** The run of slashy_shortcut_tests.py *)

Lemma sst_record_test_then {A : Type} id sc d st n (k : M State A) s :
  (record_test id sc d st n;; k) s = k (record_test id sc d st n s).2.
Proof.
  rewrite sst_bind_run, slashy_shortcut_tests_facts.shortcut_tests_record_test_run.
  reflexivity.
Qed.

Lemma sst_record_all_state calls : forall s,
  let s' := (record_all calls s).2 in
  (record_all calls s).1 = Ok tt /\
  test_results (self s') = test_results (self s) /\
  start_time (self s') = start_time (self s) /\
  recorded s' = recorded s ++ outcomes (clock (world s)) (ticks (world s)) calls /\
  stdout (world s') = stdout (world s) /\
  clock (world s') = clock (world s) /\
  ticks (world s') = (ticks (world s) + length calls)%nat.
Proof.
  induction calls as [|c calls IH]; intros s; cbv zeta.
  - cbn. rewrite app_nil_r, Nat.add_0_r. repeat split.
  - rewrite slashy_shortcut_tests_facts.shortcut_tests_record_all_cons.
    destruct c as [id [[[sc d] st] n]]. cbn [fst snd].
    rewrite slashy_shortcut_tests_facts.shortcut_tests_record_test_run. cbn [snd].
    match goal with |- context [record_all calls ?s1] => specialize (IH s1) end.
    cbv zeta in IH. destruct IH as (I1 & I2 & I3 & I4 & I5 & I6 & I7).
    rewrite I1, I2, I3, I4, I5, I6, I7.
    assert (Htr : forall t : SlashyShortcutTester,
              test_results
                (add_total
                   (if String.eqb st "PASS" then add_passed t
                    else if String.eqb st "FAIL" then add_failed t
                    else if String.eqb st "PARTIAL" then add_partial t else t))
              = test_results t /\
              start_time
                (add_total
                   (if String.eqb st "PASS" then add_passed t
                    else if String.eqb st "FAIL" then add_failed t
                    else if String.eqb st "PARTIAL" then add_partial t else t))
              = start_time t).
    { intros t. destruct (String.eqb st "PASS"); [split; reflexivity|].
      destruct (String.eqb st "FAIL"); [split; reflexivity|].
      destruct (String.eqb st "PARTIAL"); split; reflexivity. }
    destruct (Htr (self s)) as [Htr1 Htr2].
    unfold recorded at 1. cbn [self world heap stdout clock ticks].
    rewrite Htr1, Htr2, lookup_total_insert_eq. cbn [outcomes length outcome].
    rewrite <- app_assoc. cbn [app].
    repeat split; try reflexivity. lia.
Qed.

Lemma sst_get_pass_rate_pure s : get_pass_rate s = ((get_pass_rate s).1, s).
Proof. rewrite slashy_shortcut_tests_facts.shortcut_tests_get_pass_rate_run. reflexivity. Qed.

Lemma sst_get_pass_rate_self s s' :
  self s = self s' -> (get_pass_rate s).1 = (get_pass_rate s').1.
Proof.
  intros E. rewrite !slashy_shortcut_tests_facts.shortcut_tests_get_pass_rate_run, E.
  reflexivity.
Qed.

Lemma sst_get_pass_rate_then {A : Type} (k : pyfloat.float -> M State A) s rate :
  (get_pass_rate s).1 = Ok rate -> (get_pass_rate ≫= k) s = k rate s.
Proof. intros H. rewrite sst_bind_run, sst_get_pass_rate_pure, H. reflexivity. Qed.

Lemma sst_print_summary_run s rate :
  (get_pass_rate s).1 = Ok rate ->
  print_summary s =
  (Ok tt,
   printed
     [ pystr.repeat "=" 80; "TEST SUMMARY"; pystr.repeat "=" 80;
       "Total Tests:     " +:+ pystr.of_int (total_tests (self s));
       "Passed:          " +:+ pystr.of_int (passed_tests (self s)) +:+
         " (" +:+ pystr.format_f 1 rate +:+ "%)";
       "Partial:         " +:+ pystr.of_int (partial_tests (self s));
       "Failed:          " +:+ pystr.of_int (failed_tests (self s));
       "Duration:        " +:+
         pystr.format_f 2
           (datetime.total_seconds
              (datetime.sub (clock (world s) (ticks (world s))) (start_time (self s)))) +:+
         "s";
       pystr.repeat "=" 80; "" ]
     (tick s)).
Proof.
  intros Hrate. unfold print_summary.
  rewrite sst_bind_run. unfold datetime_now at 1. cbv beta iota zeta.
  change (with_world _ s) with (tick s).
  rewrite sst_bind_run. unfold gets at 1. cbv beta iota.
  rewrite !sst_print_then. rewrite sst_bind_run. unfold gets at 1. cbv beta iota.
  rewrite sst_print_then.
  rewrite (sst_get_pass_rate_then _ _ rate)
    by (rewrite <- Hrate; apply sst_get_pass_rate_self; reflexivity).
  rewrite !sst_print_then, sst_print_run, !sst_printed_printed.
  reflexivity.
Qed.

Lemma sst_build_report_run s rate rounded :
  (get_pass_rate s).1 = Ok rate ->
  pyfloat.round rate 2 = Ok rounded ->
  build_report s =
  (Ok (mk_report
         (mk_metadata "Slashy Mail" "Mac OS" "Chrome" "https://slashy.com"
            (datetime.isoformat (start_time (self s)))
            (datetime.isoformat (clock (world s) (ticks (world s)))))
         (mk_summary (total_tests (self s)) (passed_tests (self s))
            (partial_tests (self s)) (failed_tests (self s)) rounded)
         (test_results (self s))),
   tick s).
Proof.
  intros Hrate Hround. unfold build_report.
  rewrite sst_bind_run. unfold gets at 1. cbv beta iota.
  rewrite sst_bind_run. unfold datetime_now at 1. cbv beta iota zeta.
  change (with_world _ s) with (tick s).
  rewrite (sst_get_pass_rate_then _ _ rate)
    by (rewrite <- Hrate; apply sst_get_pass_rate_self; reflexivity).
  rewrite sst_bind_run. unfold lift_result at 1. rewrite Hround. reflexivity.
Qed.

Lemma sst_save_json_report_run json_dumps s rate rounded :
  (get_pass_rate s).1 = Ok rate ->
  pyfloat.round rate 2 = Ok rounded ->
  save_json_report json_dumps s =
  (let json_output :=
     json_dumps
       (mk_json
          (mk_metadata "Slashy Mail" "Mac OS" "Chrome" "https://slashy.com"
             (datetime.isoformat (start_time (self s)))
             (datetime.isoformat (clock (world s) (ticks (world s)))))
          (mk_summary (total_tests (self s)) (passed_tests (self s))
             (partial_tests (self s)) (failed_tests (self s)) rounded)
          (recorded s)) in
   (Ok json_output, printed ["JSON REPORT:"; json_output; ""] (tick s))).
Proof.
  intros Hrate Hround. unfold save_json_report.
  rewrite sst_bind_run, (sst_build_report_run s rate rounded Hrate Hround).
  rewrite sst_bind_run. unfold gets at 1. cbv beta iota.
  rewrite !sst_print_then, !sst_printed_printed. reflexivity.
Qed.

(** The lines [main] prints after [run_all_tests], and its result. *)
Lemma main_tail_run s rate :
  (get_pass_rate s).1 = Ok rate ->
  (print (pystr.repeat "=" 80);;
   print "TEST EXECUTION COMPLETE";;
   print (pystr.repeat "=" 80);;
   rate ← get_pass_rate;
   print ("Overall Status: " +:+ pystr.format_f 0 rate +:+ "% Pass Rate");;
   print "";;
   rate1 ← get_pass_rate;
   (if pyfloat.ge rate1 (pyfloat.of_int 80) then print "✓ PRODUCTION READY"
    else
      rate2 ← get_pass_rate;
      if pyfloat.ge rate2 (pyfloat.of_int 60) then print "⚠ MOSTLY FUNCTIONAL"
      else print "✗ NEEDS IMPROVEMENT");;
   print "";;
   gets (fun s => test_results (self s))) s =
  (Ok (test_results (self s)),
   printed [ pystr.repeat "=" 80; "TEST EXECUTION COMPLETE"; pystr.repeat "=" 80;
             "Overall Status: " +:+ pystr.format_f 0 rate +:+ "% Pass Rate"; "";
             overall_status rate; "" ] s).
Proof.
  intros Hrate.
  assert (Hany : forall lines, (get_pass_rate (printed lines s)).1 = Ok rate).
  { intros lines. rewrite <- Hrate. apply sst_get_pass_rate_self. reflexivity. }
  rewrite !sst_print_then, !sst_printed_printed.
  rewrite (sst_get_pass_rate_then _ _ rate (Hany _)).
  rewrite !sst_print_then, !sst_printed_printed.
  rewrite (sst_get_pass_rate_then _ _ rate (Hany _)).
  rewrite sst_bind_run. unfold overall_status.
  destruct (pyfloat.ge rate (pyfloat.of_int 80)).
  - rewrite sst_print_run, sst_print_then, !sst_printed_printed. reflexivity.
  - rewrite (sst_get_pass_rate_then _ _ rate (Hany _)).
    destruct (pyfloat.ge rate (pyfloat.of_int 60));
      rewrite sst_print_run, sst_print_then, !sst_printed_printed; reflexivity.
Qed.

Lemma sst_record_all_nil s : record_all [] s = (Ok tt, s).
Proof. reflexivity. Qed.

(** [run_all_tests] is its banner, its calls as a run, and the three
    reports. *)
Lemma sst_run_all_tests_steps json_dumps s :
  run_all_tests json_dumps s =
  (print "";; print_summary;; print_detailed_results;;
   save_json_report json_dumps;; mret tt)
    (record_all run_all_tests_calls
       (printed [ pystr.repeat "=" 80; "SLASHY KEYBOARD SHORTCUT TEST SUITE";
                  pystr.repeat "=" 80;
                  "Start Time: " +:+ datetime.str (start_time (self s));
                  "Total Tests to Run: 21"; "" ] s)).2.
Proof.
  unfold run_all_tests.
  rewrite !sst_print_then. rewrite sst_bind_run. unfold gets at 1. cbv beta iota.
  rewrite !sst_print_then. rewrite !sst_printed_printed.
  change (self (printed _ s)) with (self s). cbn [app].
  rewrite !sst_record_test_then.
  unfold run_all_tests_calls.
  rewrite !slashy_shortcut_tests_facts.shortcut_tests_record_all_cons, sst_record_all_nil.
  cbn [fst snd]. rewrite !sst_print_then. reflexivity.
Qed.

(** The loop over the categories, line by line. *)
Lemma category_line_run entry s :
  print_category entry s = (Ok tt, printed (category_line entry (recorded s)) s).
Proof.
  destruct entry as [category test_ids].
  destruct (print_category_run category test_ids s) as [H0 H1]. cbv zeta in H0, H1.
  unfold category_line.
  destruct (counted (in_category test_ids (recorded s))) as [|r rs] eqn:E.
  - rewrite (H0 eq_refl). cbn [length Z.of_nat Z.ltb Z.compare].
    rewrite sst_printed_nil. reflexivity.
  - destruct (H1 ltac:(discriminate)) as (q & Hq & Hrun).
    rewrite Hrun, Hq.
    destruct (Z.ltb_spec 0 (Z.of_nat (length (r :: rs)))) as [_|Hle];
      [reflexivity|cbn [length] in Hle; lia].
Qed.

Lemma for_each_category_lines cats : forall s,
  for_each cats print_category s =
  (Ok tt, printed (concat (map (fun entry => category_line entry (recorded s)) cats)) s).
Proof.
  induction cats as [|entry cats IH]; intros s.
  - cbn [for_each map concat]. rewrite sst_printed_nil. reflexivity.
  - cbn [for_each map concat]. rewrite sst_bind_run, category_line_run. cbv beta iota.
    rewrite IH, sst_recorded_printed, sst_printed_printed. reflexivity.
Qed.

Lemma print_detailed_results_lines s :
  print_detailed_results s =
  (Ok tt,
   printed (["RESULTS BY CATEGORY:"; ""] ++
            concat (map (fun entry => category_line entry (recorded s)) categories) ++
            [""; "DETAILED RESULTS:"; "";
             "ID  Shortcut        Status     Description";
             pystr.repeat "-" 80] ++
            map row (recorded s) ++ [""]) s).
Proof.
  unfold print_detailed_results.
  rewrite !sst_print_then, sst_bind_run, for_each_category_lines. cbv beta iota.
  rewrite !sst_print_then, sst_bind_run. unfold gets at 1. cbv beta iota.
  rewrite sst_bind_run, for_each_results, sst_print_run.
  rewrite !sst_recorded_printed, !sst_printed_printed.
  rewrite <- ?app_assoc. reflexivity.
Qed.

(** A category line depends on the results only through their test ids and
    statuses. *)
Lemma category_count_by_key (P : string -> Prop) `{!forall x, Decision (P x)}
    (test_ids : list string) : forall rs rs' : list TestResult,
  map (fun r => (test_id r, status r)) rs = map (fun r => (test_id r, status r)) rs' ->
  length (filter (fun r => P (status r)) (filter (fun r => test_id r ∈ test_ids) rs)) =
  length (filter (fun r => P (status r)) (filter (fun r => test_id r ∈ test_ids) rs')).
Proof.
  induction rs as [|r rs IH]; intros [|r' rs'] E; try discriminate; [reflexivity|].
  cbn [map] in E. injection E as E1 E2 E3.
  specialize (IH rs' E3).
  rewrite !filter_cons, E1.
  destruct (decide (test_id r' ∈ test_ids)); [|exact IH].
  rewrite !filter_cons, E2.
  destruct (decide (P (status r'))); cbn [length]; congruence.
Qed.

Lemma category_line_by_key entry (rs rs' : list TestResult) :
  map (fun r => (test_id r, status r)) rs = map (fun r => (test_id r, status r)) rs' ->
  category_line entry rs = category_line entry rs'.
Proof.
  intros E. destruct entry as [category test_ids]. unfold category_line, counted, in_category.
  pose proof (category_count_by_key (fun x => x = "PASS") test_ids rs rs' E) as H1.
  pose proof (category_count_by_key (fun x => x ∈ ["PASS"; "FAIL"; "PARTIAL"])
                test_ids rs rs' E) as H2.
  cbv beta in H1, H2. rewrite H1, H2. reflexivity.
Qed.

Lemma outcomes_keys clk clk' calls : forall k k',
  map (fun r => (test_id r, status r)) (outcomes clk k calls) =
  map (fun r => (test_id r, status r)) (outcomes clk' k' calls).
Proof.
  induction calls as [|[i [[[sh d] st] n]] calls IH]; intros k k'; [reflexivity|].
  cbn [outcomes map outcome test_id status]. f_equal. apply IH.
Qed.

(** The category lines of the shipped run: the last category, whose three
    tests are all UNTESTED, has none. *)
Lemma shipped_category_lines clk k :
  concat (map (fun entry => category_line entry (outcomes clk k run_all_tests_calls))
            categories) =
  [ "✓ Composing & Replying     : 2/2 passed (100%)";
    "✗ Navigation               : 2/4 passed (50%)";
    "✗ Email Actions            : 2/5 passed (40%)";
    "✗ Features                 : 3/5 passed (60%)";
    "✗ Selection                : 1/2 passed (50%)";
    "✓ Interface                : 2/2 passed (100%)";
    "✓ Label Management         : 2/2 passed (100%)" ].
Proof.
  transitivity
    (concat (map (fun entry =>
                    category_line entry
                      (outcomes (fun _ => datetime.mk_datetime 1 1 1 0 0 0 0) 0
                         run_all_tests_calls))
               categories)).
  - apply (f_equal (@concat string)), map_ext. intros entry.
    apply category_line_by_key, outcomes_keys.
  - vm_compute. reflexivity.
Qed.

Lemma sst_tick_printed lines s : tick (printed lines s) = printed lines (tick s).
Proof. reflexivity. Qed.

Lemma sst_self_printed lines s : self (printed lines s) = self s.
Proof. reflexivity. Qed.

Lemma sst_self_tick s : self (tick s) = self s.
Proof. reflexivity. Qed.

Lemma sst_clock_printed lines s : clock (world (printed lines s)) = clock (world s).
Proof. reflexivity. Qed.

Lemma sst_clock_tick s : clock (world (tick s)) = clock (world s).
Proof. reflexivity. Qed.

Lemma sst_ticks_printed lines s : ticks (world (printed lines s)) = ticks (world s).
Proof. reflexivity. Qed.

Lemma sst_ticks_tick s : ticks (world (tick s)) = S (ticks (world s)).
Proof. reflexivity. Qed.

Lemma sst_recorded_tick s : recorded (tick s) = recorded s.
Proof. reflexivity. Qed.

Ltac sst_project :=
  rewrite ?sst_self_printed, ?sst_self_tick, ?sst_clock_printed, ?sst_clock_tick,
    ?sst_ticks_printed, ?sst_ticks_tick, ?sst_recorded_printed, ?sst_recorded_tick.

(** What [run_all_tests] does after its last [record_test]. *)
Lemma sst_reports_run json_dumps s rate rounded :
  (get_pass_rate s).1 = Ok rate ->
  pyfloat.round rate 2 = Ok rounded ->
  (print "";; print_summary;; print_detailed_results;;
   save_json_report json_dumps;; mret tt) s =
  (Ok tt,
   printed
     ([""] ++
      [ pystr.repeat "=" 80; "TEST SUMMARY"; pystr.repeat "=" 80;
        "Total Tests:     " +:+ pystr.of_int (total_tests (self s));
        "Passed:          " +:+ pystr.of_int (passed_tests (self s)) +:+
          " (" +:+ pystr.format_f 1 rate +:+ "%)";
        "Partial:         " +:+ pystr.of_int (partial_tests (self s));
        "Failed:          " +:+ pystr.of_int (failed_tests (self s));
        "Duration:        " +:+
          pystr.format_f 2
            (datetime.total_seconds
               (datetime.sub (clock (world s) (ticks (world s))) (start_time (self s)))) +:+
          "s";
        pystr.repeat "=" 80; "" ] ++
      (["RESULTS BY CATEGORY:"; ""] ++
       concat (map (fun entry => category_line entry (recorded s)) categories) ++
       [""; "DETAILED RESULTS:"; "";
        "ID  Shortcut        Status     Description"; pystr.repeat "-" 80] ++
       map row (recorded s) ++ [""]) ++
      [ "JSON REPORT:";
        json_dumps
          (mk_json
             (mk_metadata "Slashy Mail" "Mac OS" "Chrome" "https://slashy.com"
                (datetime.isoformat (start_time (self s)))
                (datetime.isoformat (clock (world s) (S (ticks (world s))))))
             (mk_summary (total_tests (self s)) (passed_tests (self s))
                (partial_tests (self s)) (failed_tests (self s)) rounded)
             (recorded s));
        "" ])
     (tick (tick s))).
Proof.
  intros Hrate Hround.
  assert (Hself : forall s', self s' = self s -> (get_pass_rate s').1 = Ok rate).
  { intros s' E. rewrite <- Hrate. apply sst_get_pass_rate_self, E. }
  rewrite sst_print_then, sst_bind_run.
  rewrite (sst_print_summary_run (printed [""] s) rate (Hself (printed [""] s) eq_refl)).
  sst_project. rewrite sst_tick_printed, sst_printed_printed.
  cbv beta iota. rewrite sst_bind_run, print_detailed_results_lines.
  sst_project. rewrite sst_printed_printed.
  rewrite sst_bind_run.
  match goal with |- context [save_json_report json_dumps ?s1] =>
    rewrite (sst_save_json_report_run json_dumps s1 rate rounded (Hself s1 eq_refl) Hround)
  end.
  cbv zeta. sst_project. rewrite sst_tick_printed, sst_printed_printed.
  rewrite <- !app_assoc. reflexivity.
Qed.

Lemma sst_get_pass_rate_finite s :
  0 <= passed_tests (self s) <= total_tests (self s) ->
  exists rate, (get_pass_rate s).1 = Ok rate /\ pyfloat.finite_upto 10 rate.
Proof.
  intros H. rewrite slashy_shortcut_tests_facts.shortcut_tests_get_pass_rate_run. cbn [fst].
  destruct (Z.eqb_spec (total_tests (self s)) 0) as [E|E].
  - eexists; split; [reflexivity|exact I].
  - destruct (pyfloat_facts.int_true_div_finite _ _ H ltac:(lia)) as (q & -> & Hq).
    eexists; split; [reflexivity|].
    apply (pyfloat_facts.mul_100_finite 2 q Hq). lia.
Qed.

(** X9. After any sequence of [record_test] calls on a fresh recorder, in
    any world and whatever the statuses, with test ids, shortcuts, statuses
    and descriptions that standard output can encode, none of the three
    reports raises, and every row of the detailed results is again text
    that standard output can encode.
    [save_json_report] returns the very text it prints between its two
    other lines, and that text renders a report whose total is the number
    of calls, whose passed, partial and failed counts are the numbers of
    calls with exactly these statuses (a call with any other status counts
    in the total only), whose pass rate is a finite float, whose times are
    the constructor's and the call's own clock readings and whose results
    are the recorded dicts in call order. *)
Theorem shortcut_tests_reports_after_any_calls
    (json_dumps : JsonReport -> string) (w : World) (calls : list Call) :
  forallb call_encodable calls = true ->
  let s := after w calls in
  let count name := slashy_test.tally name (map without_id calls) in
  exists rate rounded,
    (get_pass_rate s).1 = Ok rate /\
    pyfloat.round rate 2 = Ok rounded /\
    pyfloat.finite_upto 65 rounded /\
    (print_summary s).1 = Ok tt /\
    (print_detailed_results s).1 = Ok tt /\
    Forall (fun line => pystr.encodable line = true) (map row (recorded s)) /\
    count "PASS" + count "PARTIAL" + count "FAIL" <= Z.of_nat (length calls) /\
    let text :=
      json_dumps
        (mk_json
           (mk_metadata "Slashy Mail" "Mac OS" "Chrome" "https://slashy.com"
              (datetime.isoformat (clock w (ticks w)))
              (datetime.isoformat (clock w (S (ticks w) + length calls)%nat)))
           (mk_summary (Z.of_nat (length calls)) (count "PASS") (count "PARTIAL")
              (count "FAIL") rounded)
           (outcomes (clock w) (S (ticks w)) calls)) in
    save_json_report json_dumps s =
    (Ok text, printed ["JSON REPORT:"; text; ""] (tick s)).
Proof.
  intros Henc. cbv zeta. unfold after.
  pose proof (sst_record_all_state calls (__init__ w)) as H.
  pose proof (slashy_shortcut_tests_facts.shortcut_tests_record_all_run calls (__init__ w)) as Hc.
  cbv zeta in H, Hc.
  assert (Hinit : recorded (__init__ w) = []).
  { unfold recorded, __init__. cbn. apply lookup_total_insert_eq. }
  rewrite Hinit in H.
  remember (record_all calls (__init__ w)) as r eqn:Er. clear Er.
  cbn [__init__ self world total_tests passed_tests failed_tests partial_tests
       test_results start_time heap stdout clock ticks app] in H, Hc.
  destruct H as (_ & I2 & I3 & I4 & I5 & I6 & I7).
  destruct Hc as (C1 & C2 & C3 & C4).
  destruct r as [res s]. cbn [fst snd] in *.
  pose proof (slashy_test_facts.tally_sum (map without_id calls)) as [Hsum _].
  cbv zeta in Hsum. rewrite length_map in Hsum.
  pose proof (slashy_test_facts.tally_nonneg "PASS" (map without_id calls)).
  pose proof (slashy_test_facts.tally_nonneg "FAIL" (map without_id calls)).
  pose proof (slashy_test_facts.tally_nonneg "PARTIAL" (map without_id calls)).
  pose proof (slashy_test_facts.tally_nonneg "ERROR" (map without_id calls)).
  destruct (sst_get_pass_rate_finite s ltac:(lia)) as (rate & Hrate & Hfin).
  destruct (pyfloat_facts.round_2_finite 10 rate Hfin ltac:(lia)) as (rounded & Hround & Hrf).
  exists rate, rounded.
  split; [exact Hrate|]. split; [exact Hround|]. split; [exact Hrf|].
  split; [rewrite (sst_print_summary_run s rate Hrate); reflexivity|].
  split; [rewrite print_detailed_results_lines; reflexivity|].
  split; [apply rows_encodable; rewrite I4; apply outcomes_encodable, Henc|].
  split; [lia|].
  rewrite (sst_save_json_report_run json_dumps s rate rounded Hrate Hround). cbv zeta.
  rewrite I3, I4, I6, I7, C1, C2, C3, C4, !Z.add_0_l. reflexivity.
Qed.

(** The theorem at three calls, one of them UNTESTED. *)
Lemma shortcut_tests_reports_after_any_calls_witness :
  let w := mk_world ∅ [] (fun k => datetime.mk_datetime 2026 1 1 0 0 0 (Z.of_nat k)) 0 in
  let calls := [ ("001", ("C", "Compose mail", "PASS", ""));
                 ("014", ("/", "Search", "FAIL", ""));
                 ("099", ("⌘+U", "Block sender", "UNTESTED", "")) ] in
  forallb call_encodable calls = true /\
  exists text,
    save_json_report (fun _ => "{}") (after w calls) =
    (Ok text, printed ["JSON REPORT:"; text; ""] (tick (after w calls))) /\
    (print_detailed_results (after w calls)).1 = Ok tt.
Proof.
  cbv zeta.
  assert (H : forallb call_encodable
                [ ("001", ("C", "Compose mail", "PASS", ""));
                  ("014", ("/", "Search", "FAIL", ""));
                  ("099", ("⌘+U", "Block sender", "UNTESTED", "")) ] = true)
    by (vm_compute; reflexivity).
  split; [exact H|].
  pose proof (shortcut_tests_reports_after_any_calls (fun _ => "{}")
                (mk_world ∅ [] (fun k => datetime.mk_datetime 2026 1 1 0 0 0 (Z.of_nat k)) 0)
                _ H) as H'.
  cbv zeta in H'.
  destruct H' as (rate & rounded & _ & _ & _ & _ & H5 & _ & _ & H7).
  eexists. split; [exact H7|exact H5].
Defined.

(** X8. For every rendering of JSON and in every world, [main] returns
    without an exception the reference to the list its recorder was
    constructed with. The banner announces 21 tests but 28 calls are
    recorded, in the order of [run_all_tests]; the counters end at 28 in
    total, 14 passed, 7 failed and 1 partial, the 6 UNTESTED calls being in
    no counter; the pass rate is exactly 50.0. Seven category lines are
    printed, none for the last category, whose tests are all UNTESTED, and
    Label Management reads 2/2 passed although two of its four tests are
    UNTESTED. The output ends with the JSON text of the report with these
    counts and the 28 results, and the status lines 50% Pass Rate and
    NEEDS IMPROVEMENT; 31 clock readings are taken. *)
Theorem shortcut_tests_main_runs_the_shipped_tests
    (json_dumps : JsonReport -> string) (w : World) :
  let s := (main json_dumps w).2 in
  let t := self s in
  let rate := S754_finite false 7036874417766400 (-47) in
  (main json_dumps w).1 = Ok (test_results (self (__init__ w))) /\
  recorded s = outcomes (clock w) (S (ticks w)) run_all_tests_calls /\
  length (recorded s) = 28%nat /\
  (total_tests t, passed_tests t, failed_tests t, partial_tests t) = (28, 14, 7, 1) /\
  (get_pass_rate s).1 = Ok rate /\
  Ok rate = pyfloat.int_true_div 50 1 /\
  ticks (world s) = (ticks w + 31)%nat /\
  stdout (world s) =
    stdout w ++
    [ pystr.repeat "=" 80; "SLASHY KEYBOARD SHORTCUT TEST SUITE"; pystr.repeat "=" 80;
      "Start Time: " +:+ datetime.str (clock w (ticks w));
      "Total Tests to Run: 21"; "" ] ++
    [ ""; pystr.repeat "=" 80; "TEST SUMMARY"; pystr.repeat "=" 80;
      "Total Tests:     28"; "Passed:          14 (50.0%)";
      "Partial:         1"; "Failed:          7";
      "Duration:        " +:+
        pystr.format_f 2
          (datetime.total_seconds
             (datetime.sub (clock w (ticks w + 29)%nat) (clock w (ticks w)))) +:+
        "s";
      pystr.repeat "=" 80; "" ] ++
    [ "RESULTS BY CATEGORY:"; "";
      "✓ Composing & Replying     : 2/2 passed (100%)";
      "✗ Navigation               : 2/4 passed (50%)";
      "✗ Email Actions            : 2/5 passed (40%)";
      "✗ Features                 : 3/5 passed (60%)";
      "✗ Selection                : 1/2 passed (50%)";
      "✓ Interface                : 2/2 passed (100%)";
      "✓ Label Management         : 2/2 passed (100%)";
      ""; "DETAILED RESULTS:"; "";
      "ID  Shortcut        Status     Description"; pystr.repeat "-" 80 ] ++
    map row (outcomes (clock w) (S (ticks w)) run_all_tests_calls) ++
    [ "";
      "JSON REPORT:";
      json_dumps
        (mk_json
           (mk_metadata "Slashy Mail" "Mac OS" "Chrome" "https://slashy.com"
              (datetime.isoformat (clock w (ticks w)))
              (datetime.isoformat (clock w (ticks w + 30)%nat)))
           (mk_summary 28 14 1 7 rate)
           (outcomes (clock w) (S (ticks w)) run_all_tests_calls));
      "";
      pystr.repeat "=" 80; "TEST EXECUTION COMPLETE"; pystr.repeat "=" 80;
      "Overall Status: 50% Pass Rate"; ""; "✗ NEEDS IMPROVEMENT"; "" ].
Proof.
  cbv zeta. unfold main. rewrite sst_bind_run, sst_run_all_tests_steps.
  pose proof (sst_record_all_state run_all_tests_calls
                (printed [ pystr.repeat "=" 80; "SLASHY KEYBOARD SHORTCUT TEST SUITE";
                           pystr.repeat "=" 80;
                           "Start Time: " +:+ datetime.str (start_time (self (__init__ w)));
                           "Total Tests to Run: 21"; "" ] (__init__ w))) as H.
  pose proof (slashy_shortcut_tests_facts.shortcut_tests_record_all_run run_all_tests_calls
                (printed [ pystr.repeat "=" 80; "SLASHY KEYBOARD SHORTCUT TEST SUITE";
                           pystr.repeat "=" 80;
                           "Start Time: " +:+ datetime.str (start_time (self (__init__ w)));
                           "Total Tests to Run: 21"; "" ] (__init__ w))) as Hc.
  cbv zeta in H, Hc.
  assert (T1 : slashy_test.tally "PASS" (map without_id run_all_tests_calls) = 14)
    by (vm_compute; reflexivity).
  assert (T2 : slashy_test.tally "FAIL" (map without_id run_all_tests_calls) = 7)
    by (vm_compute; reflexivity).
  assert (T3 : slashy_test.tally "PARTIAL" (map without_id run_all_tests_calls) = 1)
    by (vm_compute; reflexivity).
  assert (T5 : length run_all_tests_calls = 28%nat) by reflexivity.
  rewrite T1, T2, T3, T5 in Hc. rewrite T5 in H.
  assert (Hinit : recorded (__init__ w) = []).
  { unfold recorded, __init__. cbn. apply lookup_total_insert_eq. }
  change (recorded (printed _ (__init__ w))) with (recorded (__init__ w)) in H.
  rewrite Hinit in H.
  remember (record_all run_all_tests_calls _) as r eqn:Er. clear Er.
  cbn [printed __init__ self world total_tests passed_tests failed_tests partial_tests
       test_results start_time heap stdout clock ticks app] in H, Hc.
  destruct H as (_ & I2 & I3 & I4 & I5 & I6 & I7).
  destruct Hc as (C1 & C2 & C3 & C4).
  destruct r as [res s2]. cbn [fst snd] in *.
  assert (Hrate : (get_pass_rate s2).1 = Ok (S754_finite false 7036874417766400 (-47))).
  { rewrite slashy_shortcut_tests_facts.shortcut_tests_get_pass_rate_run. cbn [fst].
    rewrite C1, C2. vm_compute. reflexivity. }
  assert (Hround : pyfloat.round (S754_finite false 7036874417766400 (-47)) 2
                   = Ok (S754_finite false 7036874417766400 (-47)))
    by (vm_compute; reflexivity).
  rewrite (sst_reports_run json_dumps s2 _ _ Hrate Hround).
  rewrite (main_tail_run _ (S754_finite false 7036874417766400 (-47)))
    by (rewrite <- Hrate; apply sst_get_pass_rate_self; reflexivity).
  rewrite sst_printed_printed.
  cbn [fst snd printed tick self world heap stdout clock ticks].
  split; [rewrite I2; reflexivity|].
  split; [exact I4|].
  split.
  { transitivity (length (recorded s2)); [reflexivity|].
    rewrite I4. clear. generalize (S (ticks w)).
    unfold run_all_tests_calls. intros k. reflexivity. }
  split; [rewrite C1, C2, C3, C4; reflexivity|].
  split.
  { rewrite <- Hrate. apply sst_get_pass_rate_self. reflexivity. }
  split; [vm_compute; reflexivity|].
  split; [rewrite I7; lia|].
  rewrite I3, I4, I5, I6, I7, C1, C2, C3, C4, shipped_category_lines.
  assert (Hfmt0 : pystr.format_f 0 (S754_finite false 7036874417766400 (-47)) = "50")
    by (vm_compute; reflexivity).
  assert (Hfmt1 : pystr.format_f 1 (S754_finite false 7036874417766400 (-47)) = "50.0")
    by (vm_compute; reflexivity).
  assert (Hst : overall_status (S754_finite false 7036874417766400 (-47))
                = "✗ NEEDS IMPROVEMENT") by (vm_compute; reflexivity).
  rewrite Hfmt0, Hfmt1, Hst.
  replace (S (S (ticks w) + 28))%nat with (ticks w + 30)%nat by lia.
  replace (S (ticks w) + 28)%nat with (ticks w + 29)%nat by lia.
  change (0 + Z.of_nat 28) with 28. change (0 + 14) with 14.
  change (0 + 1) with 1. change (0 + 7) with 7.
  change (pystr.of_int 28) with "28". change (pystr.of_int 14) with "14".
  change (pystr.of_int 1) with "1". change (pystr.of_int 7) with "7".
  cbn [String.append].
  rewrite <- !app_assoc. cbn [app]. reflexivity.
Qed.

End slashy_shortcut_tests_reports.
